(** * mapillary_api: a shallow embedding of [src/mapillary_api.py]

    The module queries street-level imagery metadata by bounding box,
    projects the raw JSON records into a geometry-typed table, filters the
    table by a region polygon and merges the per-tile tables.

    Python objects are embedded as the inductive type [value]; a Python
    [float] is an extended rational (finite, nan, +inf, -inf), which is exact
    for the comparisons the module performs.  Effects (HTTP requests, printed
    warnings, files written) are recorded, in order, in a trace that every
    effectful function threads; a raised exception is the [Raise] outcome.
    The libraries the module calls (requests, mercantile, pandas' handling of
    irregular payloads, the file system, [str]) are the fields of [World]. *)

From Stdlib Require Import ZArith QArith List String Bool.
From Stdlib Require Import DecimalString.
Import ListNotations.

Local Open Scope string_scope.
Local Open Scope list_scope.

(* ================================================================== *)
(** ** Python values *)
(* ================================================================== *)

(** A Python [float]: a finite rational, [nan], [inf] or [-inf]. *)
Inductive pyfloat : Type :=
| FFin (q : Q)
| FNaN
| FPosInf
| FNegInf.

(** [a <= b] on floats: every comparison with [nan] is false. *)
Definition float_le (a b : pyfloat) : bool :=
  match a, b with
  | FNaN, _ | _, FNaN => false
  | FNegInf, _ => true
  | _, FPosInf => true
  | FFin x, FFin y => Qle_bool x y
  | _, _ => false
  end.

(** [a >= b] is [b <= a]. *)
Definition float_ge (a b : pyfloat) : bool := float_le b a.

(** The chained comparison [lo <= x <= hi]. *)
Definition float_between (lo x hi : pyfloat) : bool :=
  float_le lo x && float_le x hi.

Definition fin (z : Z) : pyfloat := FFin (inject_Z z).

(** A shapely [Point]: its x and y ordinates. *)
Record point : Type := mkPoint { px : pyfloat; py : pyfloat }.

#[local] Set Warnings "-register-all".
Inductive value : Type :=
| VNone
| VBool (b : bool)
| VInt (z : Z)
| VFloat (f : pyfloat)
| VStr (s : string)
| VList (l : list value)
| VDict (d : list (string * value))
| VPoint (p : point).

(** A pandas cell that was absent in its record: [float('nan')]. *)
Definition NaN : value := VFloat FNaN.

Inductive pytype : Type :=
| TNoneType | TBool | TInt | TFloat | TStr | TList | TDict | TPoint.

Definition type_of (v : value) : pytype :=
  match v with
  | VNone => TNoneType
  | VBool _ => TBool
  | VInt _ => TInt
  | VFloat _ => TFloat
  | VStr _ => TStr
  | VList _ => TList
  | VDict _ => TDict
  | VPoint _ => TPoint
  end.

Definition pytype_eqb (a b : pytype) : bool :=
  match a, b with
  | TNoneType, TNoneType | TBool, TBool | TInt, TInt | TFloat, TFloat
  | TStr, TStr | TList, TList | TDict, TDict | TPoint, TPoint => true
  | _, _ => false
  end.

(** Python truthiness, [bool(v)]; [nan] is truthy, a shapely geometry is
    truthy when it is not empty (a [Point] built from ordinates never is). *)
Definition truthy (v : value) : bool :=
  match v with
  | VNone => false
  | VBool b => b
  | VInt z => negb (z =? 0)%Z
  | VFloat (FFin q) => negb (Qeq_bool q 0)
  | VFloat _ => true
  | VStr s => negb (s =? "")
  | VList l => match l with [] => false | _ => true end
  | VDict d => match d with [] => false | _ => true end
  | VPoint _ => true
  end.

(** [isinstance(v, (int, float))]: the number [v] is, if it is one
    ([bool] is a subclass of [int]). *)
Definition as_number (v : value) : option pyfloat :=
  match v with
  | VInt z => Some (fin z)
  | VBool b => Some (fin (if b then 1 else 0))
  | VFloat f => Some f
  | _ => None
  end.

(** [isinstance(v, int)]: the integer [v] is, if it is one. *)
Definition as_int (v : value) : option Z :=
  match v with
  | VInt z => Some z
  | VBool b => Some (if b then 1 else 0)%Z
  | _ => None
  end.

(** [d.get(key)] on the association list of a dict. *)
Fixpoint lookup (key : string) (d : list (string * value)) : option value :=
  match d with
  | [] => None
  | (k, v) :: rest => if k =? key then Some v else lookup key rest
  end.

(** [d[key] = v]: the key keeps its place when present, else it is appended. *)
Fixpoint dict_set (key : string) (v : value) (d : list (string * value))
  : list (string * value) :=
  match d with
  | [] => [(key, v)]
  | (k, x) :: rest =>
      if k =? key then (k, v) :: rest else (k, x) :: dict_set key v rest
  end.

(* ================================================================== *)
(** ** Exceptions and outcomes *)
(* ================================================================== *)

Inductive exn_class : Type :=
| ValueError | TypeError | KeyError | AttributeError | IOError
| RequestException | OtherException.

Definition exn_class_eqb (a b : exn_class) : bool :=
  match a, b with
  | ValueError, ValueError | TypeError, TypeError | KeyError, KeyError
  | AttributeError, AttributeError | IOError, IOError
  | RequestException, RequestException
  | OtherException, OtherException => true
  | _, _ => false
  end.

(** An exception: its class and [str(e)]. *)
Record exn : Type := mkExn { cls : exn_class; msg : string }.

Inductive outcome (A : Type) : Type :=
| Ok (a : A)
| Raise (e : exn).
Arguments Ok {A} a.
Arguments Raise {A} e.

Definition obind {A B} (m : outcome A) (k : A -> outcome B) : outcome B :=
  match m with
  | Ok a => k a
  | Raise e => Raise e
  end.

(** [Series.apply(f)]: [f] on each cell in order, the first exception
    propagates. *)
Fixpoint series_apply (f : value -> outcome value) (cells : list value)
  : outcome (list value) :=
  match cells with
  | [] => Ok []
  | c :: rest =>
      obind (f c) (fun c' =>
      obind (series_apply f rest) (fun rest' => Ok (c' :: rest')))
  end.

(* ================================================================== *)
(** ** Planar geometry (the shapely predicates the module calls) *)
(* ================================================================== *)

Definition qpt : Type := (Q * Q)%type.

(** A polygon: the vertices of its exterior ring, in order; the ring closes
    from the last vertex to the first.  [[]] is the empty polygon. *)
Definition polygon : Type := list qpt.

Definition Qlt_bool (x y : Q) : bool := negb (Qle_bool y x).

Definition cross (a b c : qpt) : Q :=
  ((fst b - fst a) * (snd c - snd a) - (snd b - snd a) * (fst c - fst a))%Q.

Definition between (u v x : Q) : bool :=
  (Qle_bool u x && Qle_bool x v) || (Qle_bool v x && Qle_bool x u).

Definition on_segment (a b p : qpt) : bool :=
  Qeq_bool (cross a b p) 0
  && between (fst a) (fst b) (fst p)
  && between (snd a) (snd b) (snd p).

Definition edges (ring : polygon) : list (qpt * qpt) :=
  match ring with
  | [] => []
  | v :: rest => combine ring (rest ++ [v])
  end.

(** The edge [a b] crosses the horizontal ray that leaves [p] to the right. *)
Definition ray_crosses (p : qpt) (e : qpt * qpt) : bool :=
  let '(a, b) := e in
  if negb (Bool.eqb (Qlt_bool (snd p) (snd a)) (Qlt_bool (snd p) (snd b)))
  then Qlt_bool (fst p)
         (fst a + (snd p - snd a) * (fst b - fst a) / (snd b - snd a))%Q
  else false.

Inductive location : Type := Interior | Boundary | Exterior.

Definition locate (ring : polygon) (p : qpt) : location :=
  if existsb (fun e => on_segment (fst e) (snd e) p) (edges ring) then Boundary
  else if Nat.odd (List.length (filter (ray_crosses p) (edges ring)))
       then Interior else Exterior.

Definition locate_point (P : polygon) (p : point) : location :=
  match px p, py p with
  | FFin x, FFin y => locate P (x, y)
  | _, _ => Exterior
  end.

(** [polygon.contains(point)]: the point is in the interior. *)
Definition contains (P : polygon) (p : point) : bool :=
  match locate_point P p with Interior => true | _ => false end.

(** [point.intersects(polygon)]: the point is in the interior or on the
    boundary. *)
Definition intersects (P : polygon) (p : point) : bool :=
  match locate_point P p with Exterior => false | _ => true end.

Definition sign (q : Q) : comparison := (q ?= 0)%Q.

Definition opposite (s t : comparison) : bool :=
  match s, t with
  | Lt, Gt | Gt, Lt => true
  | _, _ => false
  end.

Definition segments_intersect (e1 e2 : qpt * qpt) : bool :=
  let '(a, b) := e1 in
  let '(c, d) := e2 in
  (opposite (sign (cross c d a)) (sign (cross c d b))
   && opposite (sign (cross a b c)) (sign (cross a b d)))
  || on_segment c d a || on_segment c d b
  || on_segment a b c || on_segment a b d.

Definition touches_ring (P : polygon) (v : qpt) : bool :=
  match locate P v with Exterior => false | _ => true end.

(** [A.disjoint(B)]: no edge of one meets an edge of the other and no vertex
    of one lies in the other. *)
Definition disjoint (A B : polygon) : bool :=
  negb (existsb (fun e1 => existsb (segments_intersect e1) (edges B)) (edges A)
        || existsb (touches_ring B) A
        || existsb (touches_ring A) B).

(** [shapely.box(minx, miny, maxx, maxy)], counter-clockwise from the
    lower right corner. *)
Definition box (minx miny maxx maxy : Q) : polygon :=
  [(maxx, miny); (maxx, maxy); (minx, maxy); (minx, miny)].

Definition Qmin_list (x : Q) (l : list Q) : Q :=
  fold_left (fun m y => if Qle_bool y m then y else m) l x.

Definition Qmax_list (x : Q) (l : list Q) : Q :=
  fold_left (fun m y => if Qle_bool m y then y else m) l x.

(** [polygon.bounds]: (minx, miny, maxx, maxy), four [nan] when empty. *)
Definition bounds (P : polygon) : pyfloat * pyfloat * pyfloat * pyfloat :=
  match P with
  | [] => (FNaN, FNaN, FNaN, FNaN)
  | (x, y) :: rest =>
      (FFin (Qmin_list x (map fst rest)), FFin (Qmin_list y (map snd rest)),
       FFin (Qmax_list x (map fst rest)), FFin (Qmax_list y (map snd rest)))
  end.

(** [bool(polygon)]: a geometry is truthy when it is not empty. *)
Definition polygon_truthy (P : polygon) : bool :=
  match P with [] => false | _ => true end.

(* ================================================================== *)
(** ** Tables, requests, effects *)
(* ================================================================== *)

(** A pandas [DataFrame] (a [GeoDataFrame] when it has a geometry column of
    [Point]s): its columns in order, each with one cell per row. *)
Record DataFrame : Type :=
  mkFrame { columns : list (string * list value); nrows : nat }.

(** [gpd.GeoDataFrame()] *)
Definition empty_GeoDataFrame : DataFrame := mkFrame [] 0.

(** The parameters of one [requests.get]. *)
Record request : Type := mkRequest {
  url : string;
  param_bbox : pyfloat * pyfloat * pyfloat * pyfloat;
  param_limit : Z;
  param_access_token : value;
  param_fields : string;
  timeout : Z
}.

Inductive warning : Type :=
| WTruncated (limit : Z)                    (* line 321 *)
| WSaveFailed (outpath : string) (e : exn)  (* line 446 *)
| WProcessing (e : exn)                     (* line 450 *)
| WSkipMalformed (e : exn).                 (* line 576 *)

Inductive event : Type :=
| ENet (r : request)
| EPrint (w : warning)
| EDumpJson (path : string) (data : value)
| EToFile (path : string) (df : DataFrame).

Definition trace : Type := list event.

Definition is_request (ev : event) : bool :=
  match ev with ENet _ => true | _ => false end.

(** What one HTTP exchange gives. *)
Inductive http_outcome : Type :=
| HttpFailure (e : string)      (* [requests.get] or [raise_for_status] raised *)
| HttpBodyNotJson (e : string)  (* [response.json()] raised [ValueError] *)
| HttpJson (v : value).

(** [mercantile.LngLatBbox]: a named tuple (west, south, east, north). *)
Record LngLatBbox : Type :=
  mkBbox { west : Q; south : Q; east : Q; north : Q }.

(** The tuple itself, and [bbox[i]]. *)
Definition bbox_tuple (b : LngLatBbox) : list Q :=
  [west b; south b; east b; north b].

Definition bbox_item (b : LngLatBbox) (i : nat) : Q := nth i (bbox_tuple b) 0%Q.

(** The collaborators of the module. *)
Record World : Type := mkWorld {
  (** [[mercantile.bounds(t) for t in mercantile.tiles(w, s, e, n, zoom)]] *)
  mercantile_tile_bounds :
    pyfloat -> pyfloat -> pyfloat -> pyfloat -> Z -> outcome (list LngLatBbox);
  (** the [n]-th HTTP exchange of the run *)
  requests_get : nat -> request -> http_outcome;
  (** [json.dump] into a file opened for writing: the exception, if any *)
  json_dump : value -> string -> option exn;
  (** [GeoDataFrame.to_file]: the exception, if any *)
  to_file : DataFrame -> string -> option exn;
  (** the builtin [str] *)
  py_str : value -> string;
  (** [pd.DataFrame.from_records] on a payload that is not a list of dicts *)
  from_records_other : value -> outcome DataFrame;
  (** [shapely.Point] on what is not a list of two or three numbers *)
  Point_other : value -> outcome point;
  (** the token found when the module was imported *)
  MAPPILARY_TOKEN : string
}.

(** Computations that raise, print, request and write. *)
Definition M (A : Type) : Type := trace -> outcome A * trace.

Definition ret {A} (a : A) : M A := fun tr => (Ok a, tr).

Definition raise {A} (e : exn) : M A := fun tr => (Raise e, tr).

Definition bind {A B} (m : M A) (k : A -> M B) : M B :=
  fun tr =>
    match m tr with
    | (Ok a, tr') => k a tr'
    | (Raise e, tr') => (Raise e, tr')
    end.

Definition lift {A} (o : outcome A) : M A := fun tr => (o, tr).

Definition emit (ev : event) : M unit := fun tr => (Ok tt, tr ++ [ev]).

(** [try: m  except <classes caught>: h] *)
Definition try_except {A} (m : M A) (caught : exn -> bool) (h : exn -> M A)
  : M A :=
  fun tr =>
    match m tr with
    | (Ok a, tr') => (Ok a, tr')
    | (Raise e, tr') => if caught e then h e tr' else (Raise e, tr')
    end.

Declare Scope py_scope.
Delimit Scope py_scope with py.
Notation "x <- m ;; k" := (bind m (fun x => k))
  (at level 61, m at next level, right associativity) : py_scope.
Notation "m ;; k" := (bind m (fun _ => k))
  (at level 61, right associativity) : py_scope.
Local Open Scope py_scope.

Definition count_requests (tr : trace) : nat :=
  List.length (filter is_request tr).

(** One step of a computation. *)
Ltac step := cbv beta iota delta [bind lift ret raise emit try_except].

(* ================================================================== *)
(** ** Builtins on values *)
(* ================================================================== *)

Definition type_error (m : string) : exn := mkExn TypeError m.

(** [v[key]] with a string key. *)
Definition py_getitem (v : value) (key : string) : outcome value :=
  match v with
  | VDict d =>
      match lookup key d with
      | Some x => Ok x
      | None => Raise (mkExn KeyError key)
      end
  | VList _ => Raise (type_error "list indices must be integers or slices, not str")
  | VStr _ => Raise (type_error "string indices must be integers, not 'str'")
  | _ => Raise (type_error "object is not subscriptable")
  end.

(** [v.get(key, default)] *)
Definition py_get (v : value) (key : string) (default : value) : outcome value :=
  match v with
  | VDict d =>
      match lookup key d with
      | Some x => Ok x
      | None => Ok default
      end
  | _ => Raise (mkExn AttributeError "object has no attribute 'get'")
  end.

(** [len(v)] *)
Definition py_len (v : value) : outcome nat :=
  match v with
  | VList l => Ok (List.length l)
  | VDict d => Ok (List.length d)
  | VStr s => Ok (String.length s)
  | _ => Raise (type_error "object has no len()")
  end.

Fixpoint chars (s : string) : list string :=
  match s with
  | EmptyString => []
  | String c rest => String c EmptyString :: chars rest
  end.

(** [for item in v] *)
Definition py_iter (v : value) : outcome (list value) :=
  match v with
  | VList l => Ok l
  | VDict d => Ok (map (fun kv => VStr (fst kv)) d)
  | VStr s => Ok (map VStr (chars s))
  | _ => Raise (type_error "object is not iterable")
  end.

Fixpoint is_substring (needle s : string) : bool :=
  prefix needle s
  || match s with
     | EmptyString => false
     | String _ rest => is_substring needle rest
     end.

(** [needle in v] for a string [needle]. *)
Definition py_in (needle : string) (v : value) : outcome bool :=
  match v with
  | VDict d => Ok (existsb (fun kv => fst kv =? needle) d)
  | VList l =>
      Ok (existsb (fun x => match x with VStr s => s =? needle | _ => false end) l)
  | VStr s => Ok (is_substring needle s)
  | _ => Raise (type_error "argument is not iterable")
  end.

Fixpoint all_strings (l : list value) : option (list string) :=
  match l with
  | [] => Some []
  | VStr s :: rest => option_map (cons s) (all_strings rest)
  | _ :: _ => None
  end.

(** [sep.join(v)] *)
Definition py_join (sep : string) (v : value) : outcome string :=
  match py_iter v with
  | Ok items =>
      match all_strings items with
      | Some strs => Ok (String.concat sep strs)
      | None => Raise (type_error "sequence item: expected str instance")
      end
  | Raise _ => Raise (type_error "can only join an iterable")
  end.

(* ================================================================== *)
(** ** pandas *)
(* ================================================================== *)

Definition column (name : string) (df : DataFrame) : option (list value) :=
  option_map snd (find (fun c => fst c =? name) (columns df)).

(** [df[name] = cells] for a column that exists. *)
Definition set_column (name : string) (cells : list value) (df : DataFrame)
  : DataFrame :=
  mkFrame
    (map (fun c => if fst c =? name then (fst c, cells) else c) (columns df))
    (nrows df).

Fixpoint as_records (l : list value) : option (list (list (string * value))) :=
  match l with
  | [] => Some []
  | VDict d :: rest => option_map (cons d) (as_records rest)
  | _ :: _ => None
  end.

Definition add_name (acc : list string) (k : string) : list string :=
  if existsb (String.eqb k) acc then acc else acc ++ [k].

(** The keys of the records, each once, in order of first appearance. *)
Definition union_names (keys : list (list string)) : list string :=
  fold_left (fun acc ks => fold_left add_name ks acc) keys [].

(** The cell of a record in a column: its value, [nan] when absent. *)
Definition cell (name : string) (rec : list (string * value)) : value :=
  match lookup name rec with
  | Some v => v
  | None => NaN
  end.

Definition frame_of_records (recs : list (list (string * value))) : DataFrame :=
  mkFrame
    (map (fun name => (name, map (cell name) recs))
         (union_names (map (map fst) recs)))
    (List.length recs).

(** Rows of [df] selected by a boolean mask, [df[mask]]. *)
Fixpoint select (mask : list bool) (cells : list value) : list value :=
  match mask, cells with
  | b :: mask', c :: cells' =>
      if b then c :: select mask' cells' else select mask' cells'
  | _, _ => []
  end.

Definition take_rows (df : DataFrame) (mask : list bool) : DataFrame :=
  mkFrame (map (fun c => (fst c, select mask (snd c))) (columns df))
          (List.length (filter (fun b => b) mask)).

(** [pd.concat(frames)]: rows appended, columns united, absent cells [nan];
    an empty list of frames is an error. *)
Definition pd_concat (frames : list DataFrame) : outcome DataFrame :=
  match frames with
  | [] => Raise (mkExn ValueError "No objects to concatenate")
  | _ =>
      Ok (mkFrame
            (map (fun name =>
                    (name,
                     flat_map (fun f => match column name f with
                                        | Some cells => cells
                                        | None => repeat NaN (nrows f)
                                        end) frames))
                 (union_names (map (fun f => map fst (columns f)) frames)))
            (list_sum (map nrows frames)))
  end.

(** [gpd.GeoDataFrame(df, crs="EPSG:4326", geometry="geometry")] keeps the
    columns and rows of [df]. *)
Definition GeoDataFrame (df : DataFrame) : DataFrame := df.

(** [gdf.intersects(P)]: row by row on the geometry column. *)
Definition gdf_intersects (gdf : DataFrame) (P : polygon) : list bool :=
  match column "geometry" gdf with
  | Some cells =>
      map (fun c => match c with VPoint p => intersects P p | _ => false end)
          cells
  | None => []
  end.

(* ================================================================== *)
(** ** The module [mapillary_api] *)
(* ================================================================== *)

Definition ZOOM_LEVEL : Z := 18.

Definition default_fields : value :=
  VList (map VStr
    ["altitude"; "atomic_scale"; "camera_parameters"; "camera_type";
     "captured_at"; "compass_angle"; "computed_altitude";
     "computed_compass_angle"; "computed_geometry"; "computed_rotation";
     "creator"; "exif_orientation"; "geometry"; "height"; "is_pano"; "make";
     "model"; "thumb_original_url"; "merge_cc"; "sequence"; "width"]).

(** lines 112-116 *)
Definition tile_bbox_to_box (tile_bbox : LngLatBbox) (swap_latlon : bool)
  : polygon :=
  if swap_latlon
  then box (south tile_bbox) (west tile_bbox) (north tile_bbox) (east tile_bbox)
  else box (west tile_bbox) (south tile_bbox) (east tile_bbox) (north tile_bbox).

(** lines 134-137; [None] when no item is truthy *)
Fixpoint check_type_by_first_valid (input_iterable : list value)
  : option pytype :=
  match input_iterable with
  | [] => None
  | item :: rest =>
      if truthy item then Some (type_of item)
      else check_type_by_first_valid rest
  end.

(** [c_type == desired_type] *)
Definition type_is (c_type : option pytype) (desired_type : pytype) : bool :=
  match c_type with
  | Some t => pytype_eqb t desired_type
  | None => false
  end.

(** lines 493-494 *)
Definition resort_bbox (bbox : LngLatBbox) : list Q :=
  [bbox_item bbox 1; bbox_item bbox 0; bbox_item bbox 3; bbox_item bbox 2].

Definition caught_in (classes : list exn_class) (e : exn) : bool :=
  existsb (exn_class_eqb (cls e)) classes.

(** [except Exception] *)
Definition any_exception (e : exn) : bool := true.

Definition msg_coordinates : string :=
  "All coordinate parameters must be numbers".
Definition msg_longitude : string :=
  "Longitude values must be between -180 and 180".
Definition msg_latitude : string :=
  "Latitude values must be between -90 and 90".
Definition msg_ordering : string :=
  "Invalid bounding box: min coordinates must be less than max coordinates".
Definition msg_limit : string := "Limit must be a positive integer".
Definition msg_token : string :=
  "No valid Mapillary API token provided. Please set API_TOKEN environment variable or create a mapillary_token file.".

Section Source.

Variable w : World.

(** lines 119-131, with [as_list=False] as every caller has it *)
Definition tilebboxes_from_bbox (minlat minlon maxlat maxlon : pyfloat)
  (zoom : Z) : outcome (list LngLatBbox) :=
  mercantile_tile_bounds w minlon minlat maxlon maxlat zoom.

(** lines 140-146 *)
Definition selected_columns_to_str (df : DataFrame) (desired_type : pytype)
  : DataFrame :=
  mkFrame
    (map (fun c =>
            let c_type := check_type_by_first_valid (snd c) in
            if type_is c_type desired_type
            then (fst c, map (fun x => VStr (py_str w x)) (snd c))
            else c)
         (columns df))
    (nrows df).

(** lines 149-167 *)
Definition dump_json (data : value) (path : string) : M unit :=
  match json_dump w data path with
  | None => emit (EDumpJson path data)
  | Some e =>
      if caught_in [IOError] e
      then raise (mkExn IOError
                    ("Cannot write JSON file '" ++ path ++ "': " ++ msg e))
      else if caught_in [TypeError; ValueError] e
      then raise (mkExn TypeError
                    ("Cannot serialize data to JSON: " ++ msg e))
      else raise e
  end.

(** [shapely.Point(coords)] *)
Definition Point (coords : value) : outcome point :=
  match coords with
  | VList [a; b] =>
      match as_number a, as_number b with
      | Some x, Some y => Ok (mkPoint x y)
      | _, _ => Point_other w coords
      end
  | VList [a; b; c] =>
      match as_number a, as_number b, as_number c with
      | Some x, Some y, Some _ => Ok (mkPoint x y)
      | _, _, _ => Point_other w coords
      end
  | _ => Point_other w coords
  end.

(** lines 193-195 *)
Definition get_coordinates_as_point (inputdict : value) : outcome value :=
  obind (py_getitem inputdict "coordinates") (fun coords =>
  obind (Point coords) (fun p => Ok (VPoint p))).

(** [requests.get(url, params=params, timeout=30)] with
    [raise_for_status] and [response.json()] *)
Definition http_get (req : request) : M http_outcome :=
  fun tr => (Ok (requests_get w (count_requests tr) req), tr ++ [ENet req]).

(** [if outpath: k outpath] *)
Definition when_path (outpath : option string) (k : string -> M unit) : M unit :=
  match outpath with
  | Some path => if negb (path =? "") then k path else ret tt
  | None => ret tt
  end.

(** lines 249-326 *)
Definition get_mapillary_images_metadata
  (minLon minLat maxLon maxLat fields token : value)
  (outpath : option string) (limit : value) : M value :=
  match as_number minLon, as_number minLat,
        as_number maxLon, as_number maxLat with
  | Some lon1, Some lat1, Some lon2, Some lat2 =>
      if negb (float_between (fin (-180)) lon1 (fin 180))
         || negb (float_between (fin (-180)) lon2 (fin 180))
      then raise (mkExn ValueError msg_longitude)
      else if negb (float_between (fin (-90)) lat1 (fin 90))
              || negb (float_between (fin (-90)) lat2 (fin 90))
      then raise (mkExn ValueError msg_latitude)
      else if float_ge lon1 lon2 || float_ge lat1 lat2
      then raise (mkExn ValueError msg_ordering)
      else
        match as_int limit with
        | None => raise (mkExn ValueError msg_limit)
        | Some n =>
            if (n <=? 0)%Z then raise (mkExn ValueError msg_limit)
            else if negb (truthy token) then raise (mkExn ValueError msg_token)
            else
              joined <- lift (py_join "," fields) ;;
              r <- http_get
                     (mkRequest "https://graph.mapillary.com/images"
                        (lon1, lat1, lon2, lat2) n token joined 30) ;;
              match r with
              | HttpFailure e =>
                  raise (mkExn RequestException
                    ("Failed to fetch data from Mapillary API: " ++ e))
              | HttpBodyNotJson e =>
                  raise (mkExn ValueError
                    ("Invalid JSON response from Mapillary API: " ++ e))
              | HttpJson as_dict =>
                  has_error <- lift (py_in "error" as_dict) ;;
                  if (has_error : bool) then
                    err <- lift (py_get as_dict "error" (VDict [])) ;;
                    error_msg <- lift (py_get err "message"
                                         (VStr "Unknown API error")) ;;
                    raise (mkExn ValueError
                      ("Mapillary API error: " ++ py_str w error_msg))
                  else
                    data <- lift (py_get as_dict "data" VNone) ;;
                    (if truthy data then
                       size <- lift (py_len data) ;;
                       if (Z.of_nat size =? n)%Z
                       then emit (EPrint (WTruncated n))
                       else ret tt
                     else ret tt) ;;
                    when_path outpath (dump_json as_dict) ;;
                    ret as_dict
              end
        end
  | _, _, _, _ => raise (mkExn ValueError msg_coordinates)
  end.

(** [pd.DataFrame.from_records(payload)] *)
Definition from_records (payload : value) : outcome DataFrame :=
  match payload with
  | VList l =>
      match as_records l with
      | Some recs => Ok (frame_of_records recs)
      | None => from_records_other w payload
      end
  | _ => from_records_other w payload
  end.

(** [gdf.to_file(path)] *)
Definition gdf_to_file (gdf : DataFrame) (path : string) : M unit :=
  match to_file w gdf path with
  | None => emit (EToFile path gdf)
  | Some e => raise e
  end.

(** lines 439-440: [if filtering_polygon: as_gdf = as_gdf[as_gdf.intersects(filtering_polygon)]] *)
Definition filter_rows (as_gdf : DataFrame) (filtering_polygon : option polygon)
  : DataFrame :=
  match filtering_polygon with
  | Some P =>
      if polygon_truthy P
      then take_rows as_gdf (gdf_intersects as_gdf P)
      else as_gdf
  | None => as_gdf
  end.

(** lines 426-448: the body of the [try] *)
Definition project_records (payload : value) (outpath : option string)
  (filtering_polygon : option polygon) : M DataFrame :=
  as_df <- lift (from_records payload) ;;
  match column "geometry" as_df with
  | None =>
      raise (mkExn ValueError "No 'geometry' field found in data records")
  | Some geometry =>
      points <- lift (series_apply get_coordinates_as_point geometry) ;;
      let as_df := set_column "geometry" points as_df in
      let as_gdf := GeoDataFrame as_df in
      let as_gdf := selected_columns_to_str as_gdf TList in
      let as_gdf := filter_rows as_gdf filtering_polygon in
      when_path outpath (fun path =>
        try_except (gdf_to_file as_gdf path) any_exception
          (fun e => emit (EPrint (WSaveFailed path e)))) ;;
      ret as_gdf
  end.

(** lines 407-453 *)
Definition mapillary_data_to_gdf (data : value) (outpath : option string)
  (filtering_polygon : option polygon) : M DataFrame :=
  match data with
  | VDict d =>
      match lookup "data" d with
      | Some payload =>
          if truthy payload then
            try_except (project_records payload outpath filtering_polygon)
              any_exception
              (fun e => emit (EPrint (WProcessing e)) ;;
                        ret empty_GeoDataFrame)
          else ret empty_GeoDataFrame
      | None => ret empty_GeoDataFrame
      end
  | _ =>
      raise (mkExn ValueError
        "Data must be a dictionary (Mapillary API response)")
  end.

(** lines 467-482: the loop over the tiles, [gdfs_list] accumulating *)
Fixpoint tile_loop (input_polygon : polygon) (token : value)
  (outpath : option string) (bboxes : list LngLatBbox)
  (gdfs_list : list DataFrame) : M (list DataFrame) :=
  match bboxes with
  | [] => ret gdfs_list
  | bbox :: rest =>
      let bbox_geom := tile_bbox_to_box bbox false in
      if negb (disjoint bbox_geom input_polygon) then
        data <-
          match map (fun q => VFloat (FFin q)) (resort_bbox bbox) with
          | [a; b; c; d] =>
              get_mapillary_images_metadata a b c d token
                (VStr (MAPPILARY_TOKEN w)) None (VInt 5000)
          | _ => raise (type_error "missing required positional arguments")
          end ;;
        payload <- lift (py_get data "data" VNone) ;;
        if truthy payload then
          gdf <- mapillary_data_to_gdf data outpath (Some input_polygon) ;;
          tile_loop input_polygon token outpath rest (gdfs_list ++ [gdf])
        else tile_loop input_polygon token outpath rest gdfs_list
      else tile_loop input_polygon token outpath rest gdfs_list
  end.

(** lines 456-490 *)
Definition tiled_mapillary_data_to_gdf (input_polygon : polygon)
  (token : value) (zoom : Z) (outpath : option string) : M DataFrame :=
  let '(minLon, minLat, maxLon, maxLat) := bounds input_polygon in
  bboxes <- lift (tilebboxes_from_bbox minLat minLon maxLat maxLon zoom) ;;
  gdfs_list <- tile_loop input_polygon token outpath bboxes [] ;;
  as_gdf <- lift (pd_concat gdfs_list) ;;
  when_path outpath (gdf_to_file as_gdf) ;;
  ret as_gdf.

(** lines 569-577: the loop over the items, the kept ones accumulating *)
Fixpoint filter_items (P : polygon) (items kept : list value)
  : M (list value) :=
  match items with
  | [] => ret kept
  | item :: rest =>
      kept' <-
        try_except
          (geometry <- lift (py_getitem item "geometry") ;;
           coords <- lift (py_getitem geometry "coordinates") ;;
           p <- lift (Point coords) ;;
           if contains P p then ret (kept ++ [item]) else ret kept)
          (caught_in [KeyError; TypeError; ValueError])
          (fun e => emit (EPrint (WSkipMalformed e)) ;; ret kept) ;;
      filter_items P rest kept'
  end.

(** lines 549-579 *)
Definition filter_metadata_with_polygon (data : value) (P : polygon)
  : M value :=
  payload <- lift (py_get data "data" VNone) ;;
  if negb (truthy payload) then ret data
  else
    match data with
    | VDict d =>
        items <- lift (py_iter payload) ;;
        kept <- filter_items P items [] ;;
        ret (VDict (dict_set "data" (VList kept) d))
    | _ => ret data
    end.

End Source.

(* ================================================================== *)
(** ** Vocabulary of the specification *)
(* ================================================================== *)

(** A finite number: an [int] (a [bool] included) or a finite [float]. *)
Definition finite_number (v : value) : bool :=
  match as_number v with
  | Some (FFin _) => true
  | _ => false
  end.

(** [v] is a number of the interval [[lo, hi]]. *)
Definition in_range (lo hi : Z) (v : value) : bool :=
  match as_number v with
  | Some f => float_between (fin lo) f (fin hi)
  | None => false
  end.

(** [a < b] for two finite numbers. *)
Definition strictly_below (a b : value) : bool :=
  match as_number a, as_number b with
  | Some (FFin x), Some (FFin y) => Qlt_bool x y
  | _, _ => false
  end.

Definition positive_integer (v : value) : bool :=
  match as_int v with
  | Some n => (0 <? n)%Z
  | None => false
  end.

(** The arguments the query client accepts (section 4.3 of the
    specification); a token is empty when it is falsy. *)
Definition valid_query_arguments
  (minLon minLat maxLon maxLat token limit : value) : bool :=
  forallb finite_number [minLon; minLat; maxLon; maxLat]
  && in_range (-180) 180 minLon && in_range (-180) 180 maxLon
  && in_range (-90) 90 minLat && in_range (-90) 90 maxLat
  && strictly_below minLon maxLon && strictly_below minLat maxLat
  && positive_integer limit
  && truthy token.

(** The [ValueError]s of the client's input validation (lines 277-293). *)
Definition InvalidArgument (e : exn) : Prop :=
  cls e = ValueError
  /\ In (msg e) [msg_coordinates; msg_longitude; msg_latitude;
                 msg_ordering; msg_limit; msg_token].

(** The records a decoded response carries: its [data] array. *)
Definition returned_records (response : value) : list value :=
  match response with
  | VDict d =>
      match lookup "data" d with
      | Some (VList l) => l
      | _ => []
      end
  | _ => []
  end.

(** The shape of a response of the metadata API: a JSON object whose [data]
    entry, when present, is an array (section 6 of the specification). *)
Definition data_is_array (d : list (string * value)) : Prop :=
  lookup "data" d = None \/ exists l, lookup "data" d = Some (VList l).

Definition is_truncation_warning (ev : event) : bool :=
  match ev with
  | EPrint (WTruncated _) => true
  | _ => false
  end.

(** The point a raw record carries, [Point(item['geometry']['coordinates'])]. *)
Definition item_point (w : World) (item : value) : outcome point :=
  obind (py_getitem item "geometry") (fun geometry =>
  obind (py_getitem geometry "coordinates") (fun coords => Point w coords)).

(** The record has a point and the polygon contains it. *)
Definition strictly_inside (w : World) (P : polygon) (item : value) : bool :=
  match item_point w item with
  | Ok p => contains P p
  | Raise _ => false
  end.

(** The row's geometry is a point that intersects the polygon. *)
Definition cell_intersects (P : polygon) (c : value) : bool :=
  match c with
  | VPoint p => intersects P p
  | _ => false
  end.

(** The first truthy value of a column. *)
Definition first_truthy (cells : list value) : option value :=
  find truthy cells.

(** An empty value, in the words of the specification: a missing one
    ([None], the [nan] of an absent cell) or an empty string, list or dict. *)
Definition is_empty_value (v : value) : bool :=
  match v with
  | VNone | VFloat FNaN => true
  | VStr s => s =? ""
  | VList l => match l with [] => true | _ => false end
  | VDict d => match d with [] => true | _ => false end
  | _ => false
  end.

(** The first non-empty value of a column. *)
Definition first_nonempty (cells : list value) : option value :=
  find (fun v => negb (is_empty_value v)) cells.

(** Every cell replaced by its string form. *)
Definition stringified (w : World) (cells : list value) : list value :=
  map (fun x => VStr (py_str w x)) cells.

Definition is_processing_warning (ev : event) : bool :=
  match ev with
  | EPrint (WProcessing _) => true
  | _ => false
  end.

(* ================================================================== *)
(** ** Concrete inputs *)
(* ================================================================== *)

(** [repr] of [None], booleans, integers, strings, and lists and dicts of
    them; the examples use no other value where a string form is taken. *)
Fixpoint py_repr (v : value) : string :=
  match v with
  | VNone => "None"
  | VBool true => "True"
  | VBool false => "False"
  | VInt z => NilZero.string_of_int (Z.to_int z)
  | VStr s => "'" ++ s ++ "'"
  | VList l => "[" ++ String.concat ", " (map py_repr l) ++ "]"
  | VDict d =>
      "{" ++ String.concat ", "
               (map (fun kv => ("'" ++ fst kv ++ "': " ++ py_repr (snd kv))%string)
                    d)
          ++ "}"
  | VFloat FNaN => "nan"
  | VFloat FPosInf => "inf"
  | VFloat FNegInf => "-inf"
  | VFloat (FFin _) => "<float>"
  | VPoint _ => "<POINT>"
  end.

Definition example_str (v : value) : string :=
  match v with
  | VStr s => s
  | _ => py_repr v
  end.

(** A world that hands out the given tiles, answers the [n]-th request with
    the [n]-th of the given responses (an empty [data] array afterwards) and
    writes every file. *)
Definition example_world (tiles : list LngLatBbox)
  (responses : list http_outcome) : World :=
  mkWorld (fun _ _ _ _ _ => Ok tiles)
          (fun n _ => nth n responses (HttpJson (VDict [("data", VList [])])))
          (fun _ _ => None)
          (fun _ _ => None)
          example_str
          (fun _ => Raise (type_error "from_records: not a list of records"))
          (fun _ => Raise (type_error "Point: not a coordinate pair"))
          "MLY|0000|token".

Definition quiet_world : World := example_world [] [].

(** A raw image record at (lon, lat). *)
Definition image (id : Z) (lon lat : Q) : list (string * value) :=
  [("id", VInt id);
   ("geometry", VDict [("type", VStr "Point");
                       ("coordinates",
                        VList [VFloat (FFin lon); VFloat (FFin lat)])]);
   ("is_pano", VBool false);
   ("computed_rotation", VList [VInt 1; VInt 0; VInt 2])].

(** A raw image record without the [computed_rotation] field. *)
Definition image_without_rotation (id : Z) (lon lat : Q)
  : list (string * value) :=
  [("id", VInt id);
   ("geometry", VDict [("type", VStr "Point");
                       ("coordinates",
                        VList [VFloat (FFin lon); VFloat (FFin lat)])]);
   ("is_pano", VBool false)].

(** A raw image record whose [computed_rotation] is the number 0. *)
Definition image_with_zero_rotation (id : Z) (lon lat : Q)
  : list (string * value) :=
  image_without_rotation id lon lat ++ [("computed_rotation", VInt 0)].

(** A raw record without a geometry field. *)
Definition image_without_geometry (id : Z) : list (string * value) :=
  [("id", VInt id); ("is_pano", VBool false)].

(** The unit square, vertices as (lon, lat). *)
Definition unit_square : polygon := [(0, 0); (1, 0); (1, 1); (0, 1)]%Q.

(** Three records: inside the unit square, on its edge, outside. *)
Definition inside_edge_outside : list (list (string * value)) :=
  [image 1 (1 # 2) (1 # 2); image 2 1 (1 # 2); image 3 2 2].

Definition response_of (recs : list (list (string * value))) : value :=
  VDict [("data", VList (map VDict recs))].


(** A tile at 10 E, 20 N, a thousandth of a degree wide, and a region
    inside it, vertices as (lon, lat). *)
Definition tile_10E_20N : LngLatBbox :=
  mkBbox 10 20 (10001 # 1000) (20001 # 1000).

Definition region_10E_20N : polygon :=
  [(100002 # 10000, 200002 # 10000); (100008 # 10000, 200002 # 10000);
   (100008 # 10000, 200008 # 10000); (100002 # 10000, 200008 # 10000)]%Q.

(** The same at 100 E, 10 N. *)
Definition tile_100E_10N : LngLatBbox :=
  mkBbox 100 10 (100001 # 1000) (10001 # 1000).

Definition region_100E_10N : polygon :=
  [(1000002 # 10000, 100002 # 10000); (1000008 # 10000, 100002 # 10000);
   (1000008 # 10000, 100008 # 10000); (1000002 # 10000, 100008 # 10000)]%Q.

(** The unit square as a tile. *)
Definition unit_tile : LngLatBbox := mkBbox 0 0 1 1.

(** The request the orchestrator sends for [tile_10E_20N] with the caller's
    token ["abc"] in the world of the examples. *)
Definition request_10E_20N : request :=
  mkRequest "https://graph.mapillary.com/images"
    (FFin 20, FFin 10, FFin (20001 # 1000), FFin (10001 # 1000))
    5000 (VStr "MLY|0000|token") "a,b,c" 30.

From Stdlib Require Import Lia Sorted Permutation.

(** Every column of the table has one cell per row. *)
Definition well_formed (df : DataFrame) : Prop :=
  Forall (fun c => List.length (snd c) = nrows df) (columns df).

(** The cell is a point and, when a non-empty polygon is given, the point
    intersects it. *)
Definition point_within (fp : option polygon) (c : value) : Prop :=
  exists p, c = VPoint p
            /\ match fp with
               | Some P => polygon_truthy P = true -> intersects P p = true
               | None => True
               end.

(** The warnings [filter_metadata_with_polygon] prints: one for each item
    whose point cannot be built, in order. *)
Definition skip_warnings (w : World) (items : list value) : list event :=
  flat_map (fun item => match item_point w item with
                        | Ok _ => []
                        | Raise e => [EPrint (WSkipMalformed e)]
                        end) items.



(* ================================================================== *)
(** ** The host: environment, files, downloads, place search *)
(* ================================================================== *)

(** The lines the functions below print. *)
Inductive message : Type :=
| MEmptyFrame                                          (* line 65 *)
| MDownloadCompleted (success failed : Z)              (* line 101 *)
| MErrorsEncountered (n : nat)                         (* line 103 *)
| MErrorLine (error : string)                          (* line 105 *)
| MMoreErrors (n : nat)                                (* line 107 *)
| MTokenInEnvironment (env_var : string)               (* line 214 *)
| MTokenInFile (token_file : string)                   (* line 224 *)
| MTokenFileUnreadable (token_file : string) (e : exn) (* line 228 *)
| MNoTokenFound                                        (* line 231 *)
| MNoTokenVariable (env_var : string)                  (* lines 232-234 *)
| MNoTokenFile (token_file : string)                   (* line 235 *)
| MDownloadError (url : value) (e : exn).              (* line 403 *)

Inductive effect : Type :=
| FPrint (m : message)
| FOpen (path : string)                  (* [open(path, "r")] *)
| FMakedirs (path : string)              (* [os.makedirs(path)] *)
| FWget (url : value) (out : string)     (* [wget.download(url, out=out)] *)
| FSleep (seconds : Z)                   (* [sleep(seconds)] *)
| FNominatim (place_name : string)       (* the request to Nominatim *)
| FModule (ev : event).                  (* an effect of [M] *)

Definition is_wget (f : effect) : bool :=
  match f with FWget _ _ => true | _ => false end.

Definition is_open (f : effect) : bool :=
  match f with FOpen _ => true | _ => false end.

(** Further collaborators. *)
Record Host : Type := mkHost {
  (** [os.environ.get] *)
  environ_get : string -> option string;
  (** [os.path.exists] *)
  path_exists : string -> bool;
  (** [open(path, "r")] followed by [readline()] *)
  readline : string -> outcome string;
  (** [str.strip] *)
  str_strip : string -> string;
  (** [os.makedirs]: the exception, if any *)
  os_makedirs : string -> option exn;
  (** [os.path.join] *)
  os_path_join : string -> string -> string;
  (** the [n]-th [wget.download] of the run: the exception, if any *)
  wget_download : nat -> value -> string -> option exn;
  (** the column name is a field of the named tuples of [itertuples] (a
      valid identifier that is no keyword and starts with no underscore) *)
  is_tuple_field : string -> bool;
  (** the index label of a row of a table *)
  index_label : DataFrame -> nat -> value;
  (** the exchange with Nominatim for a place name *)
  nominatim_get : string -> http_outcome;
  (** [list.sort(key=..., reverse=True)] when some key is not a finite
      number: the keys with their items *)
  sort_other : list (value * value) -> outcome (list value);
  (** float arithmetic: [a * b], [a / b], [a + b], [a - b], [cos], [pi] *)
  float_mul : pyfloat -> pyfloat -> outcome pyfloat;
  float_div : pyfloat -> pyfloat -> outcome pyfloat;
  float_add : pyfloat -> pyfloat -> outcome pyfloat;
  float_sub : pyfloat -> pyfloat -> outcome pyfloat;
  float_cos : pyfloat -> outcome pyfloat;
  float_pi : pyfloat;
  (** [shapely.box(minx, miny, maxx, maxy).bounds] *)
  box_bounds : pyfloat -> pyfloat -> pyfloat -> pyfloat
               -> outcome (pyfloat * pyfloat * pyfloat * pyfloat)
}.

(** Computations over the effects of the host. *)
Definition H (A : Type) : Type := list effect -> outcome A * list effect.

Definition hret {A} (a : A) : H A := fun log => (Ok a, log).

Definition hraise {A} (e : exn) : H A := fun log => (Raise e, log).

Definition hbind {A B} (m : H A) (k : A -> H B) : H B :=
  fun log =>
    match m log with
    | (Ok a, log') => k a log'
    | (Raise e, log') => (Raise e, log')
    end.

Definition hlift {A} (o : outcome A) : H A := fun log => (o, log).

Definition hemit (f : effect) : H unit := fun log => (Ok tt, log ++ [f]).

(** [try: m  except <classes caught>: h] *)
Definition htry {A} (m : H A) (caught : exn -> bool) (h : exn -> H A) : H A :=
  fun log =>
    match m log with
    | (Ok a, log') => (Ok a, log')
    | (Raise e, log') => if caught e then h e log' else (Raise e, log')
    end.

(** A computation of [M] that does not read its trace, run on the host. *)
Definition run_module {A} (m : M A) : H A :=
  fun log => let '(r, evs) := m [] in (r, log ++ map FModule evs).

(** [if verbose: print(m)] *)
Definition say (verbose : bool) (m : message) : H unit :=
  if verbose then hemit (FPrint m) else hret tt.

Declare Scope host_scope.
Delimit Scope host_scope with host.
Notation "x <- m ;; k" := (hbind m (fun x => k))
  (at level 61, m at next level, right associativity) : host_scope.
Notation "m ;; k" := (hbind m (fun _ => k))
  (at level 61, right associativity) : host_scope.

Ltac hstep :=
  cbv beta iota delta [hbind hlift hret hraise hemit htry say].

Definition env_vars : list string :=
  ["API_TOKEN"; "MAPPILLARY_API_TOKEN"; "MAPILLARY_TOKEN"].

Section HostSource.

Variable w : World.
Variable h : Host.

Local Open Scope host_scope.

(** lines 40-42 *)
Definition create_dir_if_not_exists (path : string) : H unit :=
  if negb (path_exists h path) then
    match os_makedirs h path with
    | None => hemit (FMakedirs path)
    | Some e => hraise e
    end
  else hret tt.

(** lines 210-215: the loop over the environment variables; [None] when it
    ends without [return] *)
Fixpoint token_from_environment (verbose : bool) (vars : list string)
  : H (option string) :=
  match vars with
  | [] => hret None
  | env_var :: rest =>
      match environ_get h env_var with
      | Some token =>
          if negb (token =? "") && negb (str_strip h token =? "") then
            say verbose (MTokenInEnvironment env_var) ;;
            hret (Some (str_strip h token))
          else token_from_environment verbose rest
      | None => token_from_environment verbose rest
      end
  end.

(** lines 218-228: the token file; [None] when the block ends without
    [return] *)
Definition token_from_file (token_file : string) (verbose : bool)
  : H (option string) :=
  if path_exists h token_file then
    htry
      (line <- (fun log => (readline h token_file, log ++ [FOpen token_file])) ;;
       let token := str_strip h line in
       if negb (token =? "") then
         say verbose (MTokenInFile token_file) ;; hret (Some token)
       else hret None)
      (caught_in [IOError])
      (fun e => say verbose (MTokenFileUnreadable token_file e) ;; hret None)
  else hret None.

(** lines 199-237 *)
Definition get_mapillary_token (token_file : string) (verbose : bool)
  : H string :=
  found <- token_from_environment verbose env_vars ;;
  match found with
  | Some token => hret token
  | None =>
      found <- token_from_file token_file verbose ;;
      match found with
      | Some token => hret token
      | None =>
          say verbose MNoTokenFound ;;
          say verbose (MNoTokenVariable "API_TOKEN") ;;
          say verbose (MNoTokenVariable "MAPPILLARY_API_TOKEN") ;;
          say verbose (MNoTokenVariable "MAPILLARY_TOKEN") ;;
          say verbose (MNoTokenFile token_file) ;;
          hret ""
      end
  end.


(** lines 336-340 *)
Definition degrees_to_radius (degrees lat : pyfloat) : outcome pyfloat :=
  obind (float_mul h degrees (fin 111320)) (fun m =>
  obind (float_mul h lat (float_pi h)) (fun a =>
  obind (float_div h a (fin 180)) (fun b =>
  obind (float_cos h b) (fun c =>
  float_mul h m c)))).



(** lines 386-404 *)
Definition download_mapillary_image (url : value) (outfilepath : string)
  (cooldown : Z) : H unit :=
  htry
    ((fun log =>
        match wget_download h (List.length (filter is_wget log)) url
                outfilepath with
        | None => (Ok tt, log ++ [FWget url outfilepath])
        | Some e => (Raise e, log ++ [FWget url outfilepath])
        end) ;;
     if negb (cooldown =? 0)%Z then
       if (cooldown <? 0)%Z
       then hraise (mkExn ValueError "sleep length must be non-negative")
       else hemit (FSleep cooldown)
     else hret tt)
    any_exception
    (fun e => hemit (FPrint (MDownloadError url e)) ;; hraise e).

(** The rows of [gdf.itertuples()]: the index label first, then each cell
    with the name of its column. *)
Definition itertuples (gdf : DataFrame) : list (list (string * value)) :=
  map (fun i => ("Index", index_label h gdf i)
                :: map (fun c => (fst c, nth i (snd c) NaN)) (columns gdf))
      (seq 0 (nrows gdf)).

(** [getattr(row, name)] *)
Definition row_getattr (row : list (string * value)) (name : string)
  : outcome value :=
  if is_tuple_field h name then
    match lookup name row with
    | Some v => Ok v
    | None => Raise (mkExn AttributeError name)
    end
  else Raise (mkExn AttributeError name).

(** [getattr(row, name, 'unknown')] *)
Definition row_getattr_default (row : list (string * value)) (name : string)
  : value :=
  match row_getattr row name with
  | Ok v => v
  | Raise _ => VStr "unknown"
  end.

(** The counters of the download loop. *)
Record tally : Type :=
  mkTally { success_count : Z; failed_count : Z; errors : list string }.

(** lines 81-99: the loop over the rows *)
Fixpoint download_rows (outfolderpath id_field url_field : string)
  (rows : list (list (string * value))) (t : tally) : H tally :=
  match rows with
  | [] => hret t
  | row :: rest =>
      t' <-
        htry
          (image_id <- hlift (row_getattr row id_field) ;;
           image_url <- hlift (row_getattr row url_field) ;;
           if negb (truthy image_url) then
             hret (mkTally (success_count t) (failed_count t + 1)
                     (errors t
                      ++ [("Empty URL for image ID: "
                           ++ py_str w image_id)%string]))
           else
             download_mapillary_image image_url
               (os_path_join h outfolderpath
                  (py_str w image_id ++ ".jpg")%string) 1 ;;
             hret (mkTally (success_count t + 1) (failed_count t) (errors t)))
          any_exception
          (fun e =>
             hret (mkTally (success_count t) (failed_count t + 1)
                     (errors t
                      ++ [("Failed to download image ID "
                           ++ py_str w (row_getattr_default row id_field)
                           ++ ": " ++ msg e)%string]))) ;;
      download_rows outfolderpath id_field url_field rest t'
  end.

(** [for error in errors[:5]: print(...)] *)
Fixpoint print_errors (l : list string) : H unit :=
  match l with
  | [] => hret tt
  | error :: rest => hemit (FPrint (MErrorLine error)) ;; print_errors rest
  end.

Definition summary (t : tally) : value :=
  VDict [("success", VInt (success_count t));
         ("failed", VInt (failed_count t));
         ("errors", VList (map VStr (errors t)))].

(** [gdf.empty]: one of the axes has length 0 *)
Definition frame_empty (gdf : DataFrame) : bool :=
  match columns gdf with
  | [] => true
  | _ => (nrows gdf =? 0)%nat
  end.

(** [name in gdf.columns] *)
Definition in_columns (name : string) (gdf : DataFrame) : bool :=
  existsb (fun c => fst c =? name) (columns gdf).

(** lines 45-109 *)
Definition download_all_pictures_from_gdf (gdf : DataFrame)
  (outfolderpath id_field url_field : string) : H value :=
  if frame_empty gdf then
    hemit (FPrint MEmptyFrame) ;;
    hret (summary (mkTally 0 0 []))
  else if negb (in_columns id_field gdf) then
    hraise (mkExn ValueError
              ("ID field '" ++ id_field
               ++ "' not found in GeoDataFrame columns"))
  else if negb (in_columns url_field gdf) then
    hraise (mkExn ValueError
              ("URL field '" ++ url_field
               ++ "' not found in GeoDataFrame columns"))
  else
    create_dir_if_not_exists outfolderpath ;;
    t <- download_rows outfolderpath id_field url_field (itertuples gdf)
           (mkTally 0 0 []) ;;
    hemit (FPrint (MDownloadCompleted (success_count t) (failed_count t))) ;;
    (match errors t with
     | [] => hret tt
     | _ =>
         hemit (FPrint (MErrorsEncountered (List.length (errors t)))) ;;
         print_errors (firstn 5 (errors t)) ;;
         if (5 <? List.length (errors t))%nat
         then hemit (FPrint (MMoreErrors (List.length (errors t) - 5)))
         else hret tt
     end) ;;
    hret (summary t).

(** [[f(x) for x in items]] *)
Fixpoint list_apply {A} (f : value -> outcome A) (items : list value)
  : outcome (list A) :=
  match items with
  | [] => Ok []
  | x :: rest =>
      obind (f x) (fun y =>
      obind (list_apply f rest) (fun ys => Ok (y :: ys)))
  end.

(** [x.get("importance", 0)], the sort key of line 531 *)
Definition importance (x : value) : outcome value :=
  py_get x "importance" (VInt 0).

Fixpoint finite_keys (keys : list value) : option (list Q) :=
  match keys with
  | [] => Some []
  | k :: rest =>
      match as_number k, finite_keys rest with
      | Some (FFin q), Some qs => Some (q :: qs)
      | _, _ => None
      end
  end.

(** One step of a stable sort by decreasing key: [x] goes before the first
    item whose key is not greater. *)
Fixpoint insert_decreasing (x : Q * value) (l : list (Q * value))
  : list (Q * value) :=
  match l with
  | [] => [x]
  | y :: rest =>
      if Qle_bool (fst y) (fst x) then x :: y :: rest
      else y :: insert_decreasing x rest
  end.

Definition sort_decreasing (l : list (Q * value)) : list (Q * value) :=
  fold_right insert_decreasing [] l.

(** line 531: [data.sort(key=lambda x: x.get("importance", 0), reverse=True)] *)
Definition sort_by_importance (items : list value) : outcome (list value) :=
  obind (list_apply importance items) (fun keys =>
  match finite_keys keys with
  | Some qs => Ok (map snd (sort_decreasing (combine qs items)))
  | None => sort_other h (combine keys items)
  end).

(** [d.get("geojson", {}).get("type") == "Polygon"] *)
Definition is_polygon_item (d : value) : outcome bool :=
  obind (py_get d "geojson" (VDict [])) (fun geojson =>
  obind (py_get geojson "type" VNone) (fun t =>
  Ok match t with
     | VStr s => s =? "Polygon"
     | _ => false
     end)).

(** line 534: the list comprehension *)
Fixpoint polygon_items (data : list value) : outcome (list value) :=
  match data with
  | [] => Ok []
  | d :: rest =>
      obind (is_polygon_item d) (fun keep =>
      obind (polygon_items rest) (fun kept =>
      Ok (if (keep : bool) then d :: kept else kept)))
  end.

(** lines 497-546 *)
Definition get_territory_polygon (place_name : string)
  (outpath : option string) : H value :=
  r <- (fun log => (Ok (nominatim_get h place_name),
                    log ++ [FNominatim place_name])) ;;
  match r with
  | HttpFailure e =>
      hraise (mkExn RequestException
                ("Failed to fetch territory data from Nominatim API: " ++ e))
  | HttpBodyNotJson e =>
      hraise (mkExn ValueError
                ("Invalid JSON response from Nominatim API: " ++ e))
  | HttpJson data =>
      if negb (truthy data) then
        hraise (mkExn ValueError
                  ("No results found for place name: '" ++ place_name ++ "'"))
      else
        match data with
        | VList items =>
            sorted <- hlift (sort_by_importance items) ;;
            polygon_data <- hlift (polygon_items sorted) ;;
            match polygon_data with
            | [] =>
                hraise (mkExn ValueError
                          ("No polygon geometry found for place name: '"
                           ++ place_name ++ "'"))
            | first :: _ =>
                polygon <- hlift (py_getitem first "geojson") ;;
                match outpath with
                | Some path =>
                    if negb (path =? "")
                    then run_module (dump_json w polygon path)
                    else hret tt
                | None => hret tt
                end ;;
                hret polygon
            end
        | _ => hraise (mkExn AttributeError "object has no attribute 'sort'")
        end
  end.

End HostSource.

(** The environment variable holds a token: a value that is not blank. *)
Definition usable (h : Host) (env_var : string) : bool :=
  match environ_get h env_var with
  | Some token => negb (token =? "") && negb (str_strip h token =? "")
  | None => false
  end.



(** The downloads attempted in a log. *)
Definition downloads (log : list effect) : nat :=
  List.length (filter is_wget log).

(** The importance of a candidate when it is a finite number (0 when the
    candidate has none). *)
Definition importance_value (item : value) : option Q :=
  match importance item with
  | Ok k =>
      match as_number k with
      | Some (FFin q) => Some q
      | _ => None
      end
  | Raise _ => None
  end.

(** The candidate carries a geojson object of type Polygon. *)
Definition polygon_typed (item : value) : bool :=
  match is_polygon_item item with
  | Ok b => b
  | Raise _ => false
  end.

(** A candidate the selection can handle: its importance is a finite number
    and its geojson entry, if any, is an object. *)
Definition regular_candidate (item : value) : Prop :=
  (exists q, importance_value item = Some q)
  /\ exists b, is_polygon_item item = Ok b.

(** A candidate with its sort key. *)
Definition keyed (item : value) : Q * value :=
  (match importance_value item with Some q => q | None => 0%Q end, item).

(** The key of [b] is not above the key of [a]. *)
Definition not_above (a b : Q * value) : Prop := (fst b <= fst a)%Q.

(* ================================================================== *)
(** ** Concrete inputs for the host *)
(* ================================================================== *)

(** A host with the given environment and no token file, where strings
    carry no blanks, every folder can be created, the downloads whose
    numbers are listed fail, and Nominatim gives the given answer; the
    examples do no float arithmetic. *)
Definition example_host (env : list (string * string))
  (failing : list nat) (answer : http_outcome) : Host :=
  mkHost
    (fun name => option_map snd (find (fun kv => fst kv =? name) env))
    (fun _ => false)
    (fun path => Raise (mkExn IOError "No such file or directory"))
    (fun s => s)
    (fun _ => None)
    (fun a b => (a ++ "/" ++ b)%string)
    (fun n _ _ => if existsb (Nat.eqb n) failing
                  then Some (mkExn OtherException "HTTP Error 404: Not Found")
                  else None)
    (fun _ => true)
    (fun _ i => VInt (Z.of_nat i))
    (fun _ => answer)
    (fun _ => Raise (type_error "'<' not supported"))
    (fun _ _ => Ok FNaN) (fun _ _ => Ok FNaN)
    (fun _ _ => Ok FNaN) (fun _ _ => Ok FNaN)
    (fun _ => Ok FNaN)
    (FFin (884279719003555 # 281474976710656))
    (fun a b c d => Ok (a, b, c, d)).

(** A table of three pictures: the second has an empty URL. *)
Definition three_pictures : DataFrame :=
  mkFrame
    [("id", [VInt 11; VInt 12; VInt 13]);
     ("thumb_original_url",
      [VStr "https://example.org/11"; VStr ""; VStr "https://example.org/13"])]
    3.

(** A candidate of Nominatim. *)
Definition candidate (importance : Q) (type name : string) : value :=
  VDict [("display_name", VStr name);
         ("importance", VFloat (FFin importance));
         ("geojson", VDict [("type", VStr type); ("name", VStr name)])].

Definition three_candidates : list value :=
  [candidate (9 # 10) "Point" "centre";
   candidate (5 # 10) "Polygon" "district";
   candidate (7 # 10) "Polygon" "city"].



(** The call raises one of the validation errors. *)
Ltac reject :=
  eexists; split; [reflexivity | split; [reflexivity | simpl; tauto]].

(** What was raised is no validation error: by its class or its message. *)
Ltac not_invalid :=
  let Hc := fresh "Hc" in
  let Hm := fresh "Hm" in
  intros [Hc Hm]; simpl in Hc; try discriminate Hc;
  unfold msg_coordinates, msg_longitude, msg_latitude, msg_ordering,
    msg_limit, msg_token in Hm; simpl in Hm;
  repeat (destruct Hm as [Hm | Hm]; try discriminate Hm); try contradiction.

(* ################################################################## *)
(** * Properties *)
(* ################################################################## *)

(* ================================================================== *)
(** ** The query client *)
(* ================================================================== *)

Lemma bind_run {A B} (m : M A) (k : A -> M B) tr :
  bind m k tr
  = match m tr with
    | (Ok a, tr') => k a tr'
    | (Raise e, tr') => (Raise e, tr')
    end.
Proof. reflexivity. Qed.

Lemma float_between_finite lo f hi :
  float_between (fin lo) f (fin hi) = true -> exists q, f = FFin q.
Proof.
  destruct f as [q| | |]; unfold float_between; simpl;
    try discriminate; eauto.
Qed.

(** What the spec asks of the arguments is what the code tests. *)
Lemma valid_query_arguments_checks minLon minLat maxLon maxLat token limit :
  valid_query_arguments minLon minLat maxLon maxLat token limit = true <->
  exists lon1 lat1 lon2 lat2 n,
    as_number minLon = Some lon1 /\ as_number minLat = Some lat1
    /\ as_number maxLon = Some lon2 /\ as_number maxLat = Some lat2
    /\ float_between (fin (-180)) lon1 (fin 180) = true
    /\ float_between (fin (-180)) lon2 (fin 180) = true
    /\ float_between (fin (-90)) lat1 (fin 90) = true
    /\ float_between (fin (-90)) lat2 (fin 90) = true
    /\ float_ge lon1 lon2 = false /\ float_ge lat1 lat2 = false
    /\ as_int limit = Some n /\ (n <=? 0)%Z = false
    /\ truthy token = true.
Proof.
  unfold valid_query_arguments, in_range, strictly_below, positive_integer,
    finite_number, forallb.
  split.
  - intros H.
    repeat (apply andb_prop in H; destruct H as [H ?]).
    destruct (as_number minLon) as [[a| | |]|]; try discriminate.
    destruct (as_number minLat) as [[b| | |]|]; try discriminate.
    destruct (as_number maxLon) as [[c| | |]|]; try discriminate.
    destruct (as_number maxLat) as [[d| | |]|]; try discriminate.
    destruct (as_int limit) as [n|]; try discriminate.
    exists (FFin a), (FFin b), (FFin c), (FFin d), n.
    repeat split; auto; unfold float_ge, float_le, Qlt_bool in *.
    + now apply negb_true_iff.
    + now apply negb_true_iff.
    + apply Z.leb_gt. now apply Z.ltb_lt.
  - intros (lon1 & lat1 & lon2 & lat2 & n & -> & -> & -> & -> & H1 & H2 & H3
            & H4 & H5 & H6 & -> & H7 & ->).
    destruct (float_between_finite _ _ _ H1) as [a ->].
    destruct (float_between_finite _ _ _ H2) as [c ->].
    destruct (float_between_finite _ _ _ H3) as [b ->].
    destruct (float_between_finite _ _ _ H4) as [d ->].
    rewrite H1, H2, H3, H4. unfold float_ge, float_le, Qlt_bool in *.
    rewrite H5, H6. simpl.
    apply Z.leb_gt in H7. apply Z.ltb_lt in H7. now rewrite H7.
Qed.

Lemma not_invalid_class e : cls e <> ValueError -> ~ InvalidArgument e.
Proof. intros H [Hc _]. contradiction. Qed.

Lemma py_in_raises needle v e : py_in needle v = Raise e -> cls e = TypeError.
Proof. destruct v; simpl; try discriminate; now intros [= <-]. Qed.

Lemma py_get_raises v key default e :
  py_get v key default = Raise e -> cls e = AttributeError.
Proof.
  destruct v; simpl; try discriminate; try now intros [= <-].
  destruct (lookup key d); discriminate.
Qed.

Lemma py_len_raises v e : py_len v = Raise e -> cls e = TypeError.
Proof. destruct v; simpl; try discriminate; now intros [= <-]. Qed.

Lemma py_join_raises sep v e : py_join sep v = Raise e -> cls e = TypeError.
Proof.
  unfold py_join. destruct (py_iter v) as [items|e0].
  - destruct (all_strings items); [discriminate | now intros [= <-]].
  - now intros [= <-].
Qed.

Lemma dump_json_not_invalid w data path tr e tr' :
  dump_json w data path tr = (Raise e, tr') -> ~ InvalidArgument e.
Proof.
  unfold dump_json. destruct (json_dump w data path) as [e0|].
  - destruct (caught_in [IOError] e0) eqn:Hio.
    + step. intros [= <- <-]. not_invalid.
    + destruct (caught_in [TypeError; ValueError] e0) eqn:Hcaught.
      * step. intros [= <- <-]. not_invalid.
      * step. intros [= <- <-]. intros [Hc _].
        unfold caught_in in Hcaught. rewrite Hc in Hcaught.
        simpl in Hcaught. discriminate.
  - step. discriminate.
Qed.

Lemma when_path_dump_not_invalid w outpath data tr e tr' :
  when_path outpath (dump_json w data) tr = (Raise e, tr') ->
  ~ InvalidArgument e.
Proof.
  unfold when_path. destruct outpath as [path|]; [|step; discriminate].
  destruct (negb (path =? "")); [|step; discriminate].
  apply dump_json_not_invalid.
Qed.

(** C5.  The query client rejects exactly the invalid arguments: when a
    coordinate is not a finite number, a longitude is outside [-180, 180], a
    latitude is outside [-90, 90], the box is not strictly ordered, the limit
    is not a positive integer or the token is empty, the call raises one of
    the validation errors and the trace is unchanged (no request was issued);
    for valid arguments, whatever is raised is not a validation error. *)
Theorem query_rejects_invalid_arguments_before_any_request
  (w : World) (minLon minLat maxLon maxLat fields token : value)
  (outpath : option string) (limit : value) (tr : trace) :
  (valid_query_arguments minLon minLat maxLon maxLat token limit = false ->
   exists e,
     get_mapillary_images_metadata w minLon minLat maxLon maxLat fields token
       outpath limit tr = (Raise e, tr)
     /\ InvalidArgument e)
  /\ (valid_query_arguments minLon minLat maxLon maxLat token limit = true ->
      forall e tr',
        get_mapillary_images_metadata w minLon minLat maxLon maxLat fields
          token outpath limit tr = (Raise e, tr') ->
        ~ InvalidArgument e).
Proof.
  split.
  - intros Hbad. unfold get_mapillary_images_metadata.
    destruct (as_number minLon) as [lon1|] eqn:E1; [|reject].
    destruct (as_number minLat) as [lat1|] eqn:E2; [|reject].
    destruct (as_number maxLon) as [lon2|] eqn:E3; [|reject].
    destruct (as_number maxLat) as [lat2|] eqn:E4; [|reject].
    destruct (float_between (fin (-180)) lon1 (fin 180)) eqn:B1; [|reject].
    destruct (float_between (fin (-180)) lon2 (fin 180)) eqn:B2; [|reject].
    destruct (float_between (fin (-90)) lat1 (fin 90)) eqn:B3; [|reject].
    destruct (float_between (fin (-90)) lat2 (fin 90)) eqn:B4; [|reject].
    destruct (float_ge lon1 lon2) eqn:G1; [reject|].
    destruct (float_ge lat1 lat2) eqn:G2; [reject|].
    destruct (as_int limit) as [n|] eqn:L1; [|reject].
    destruct (n <=? 0)%Z eqn:L2; [reject|].
    destruct (truthy token) eqn:T1; [|reject].
    exfalso.
    assert (valid_query_arguments minLon minLat maxLon maxLat token limit = true)
      as Hgood.
    { apply valid_query_arguments_checks.
      exists lon1, lat1, lon2, lat2, n. repeat split; assumption. }
    rewrite Hgood in Hbad. discriminate.
  - intros Hgood e tr'.
    apply valid_query_arguments_checks in Hgood.
    destruct Hgood as (lon1 & lat1 & lon2 & lat2 & n & E1 & E2 & E3 & E4 & B1
                       & B2 & B3 & B4 & G1 & G2 & L1 & L2 & T1).
    unfold get_mapillary_images_metadata.
    rewrite E1, E2, E3, E4, B1, B2, B3, B4, G1, G2, L1, L2, T1. simpl.
    step.
    destruct (py_join "," fields) as [joined|e0] eqn:J.
    2:{ intros [= <- <-]. apply not_invalid_class.
        rewrite (py_join_raises _ _ _ J). discriminate. }
    unfold http_get.
    destruct (requests_get w (count_requests tr) _) as [e1|e1|as_dict].
    { intros [= <- <-]. not_invalid. }
    { intros [= <- <-]. not_invalid. }
    destruct (py_in "error" as_dict) as [[|]|e2] eqn:I.
    3:{ intros [= <- <-]. apply not_invalid_class.
        rewrite (py_in_raises _ _ _ I). discriminate. }
    { destruct (py_get as_dict "error" (VDict [])) as [err|e2] eqn:G.
      2:{ intros [= <- <-]. apply not_invalid_class.
          rewrite (py_get_raises _ _ _ _ G). discriminate. }
      destruct (py_get err "message" _) as [error_msg|e2] eqn:G'.
      2:{ intros [= <- <-]. apply not_invalid_class.
          rewrite (py_get_raises _ _ _ _ G'). discriminate. }
      intros [= <- <-]. not_invalid. }
    destruct (py_get as_dict "data" VNone) as [data|e2] eqn:G.
    2:{ intros [= <- <-]. apply not_invalid_class.
        rewrite (py_get_raises _ _ _ _ G). discriminate. }
    destruct (truthy data).
    + destruct (py_len data) as [size|e2] eqn:Len.
      2:{ intros [= <- <-]. apply not_invalid_class.
          rewrite (py_len_raises _ _ Len). discriminate. }
      destruct (Z.of_nat size =? n)%Z;
        (destruct (when_path outpath (dump_json w as_dict) _)
           as [[[]|e2] tr2] eqn:D;
         [discriminate
         | intros [= <- <-];
           exact (when_path_dump_not_invalid _ _ _ _ _ _ D)]).
    + destruct (when_path outpath (dump_json w as_dict) _)
        as [[[]|e2] tr2] eqn:D;
      [discriminate
      | intros [= <- <-]; exact (when_path_dump_not_invalid _ _ _ _ _ _ D)].
Qed.

Lemma lookup_none_not_key key d :
  lookup key d = None -> existsb (fun kv => fst kv =? key) d = false.
Proof.
  induction d as [|[k v] d IH]; simpl; [reflexivity|].
  destruct (k =? key); [discriminate | exact IH].
Qed.

Lemma when_path_dump_ok w outpath data tr :
  (forall path, json_dump w data path = None) ->
  exists evs,
    when_path outpath (dump_json w data) tr = (Ok tt, tr ++ evs)
    /\ existsb is_truncation_warning evs = false.
Proof.
  intros Hdump. unfold when_path, dump_json.
  destruct outpath as [path|].
  - destruct (negb (path =? "")).
    + rewrite Hdump. step. eexists; split; [reflexivity | reflexivity].
    + exists []. step. now rewrite app_nil_r.
  - exists []. step. now rewrite app_nil_r.
Qed.

(** C6.  A query that succeeds (valid arguments, a response of the API's
    shape without an error payload, the optional dump written) returns the
    decoded response as it is, and prints the truncation warning if and only
    if the number of returned records equals the limit. *)
Theorem truncation_warning_iff_count_equals_limit
  (w : World) (minLon minLat maxLon maxLat fields token : value)
  (outpath : option string) (limit : value) (tr : trace)
  (n : Z) (joined : string) (d : list (string * value)) :
  valid_query_arguments minLon minLat maxLon maxLat token limit = true ->
  as_int limit = Some n ->
  py_join "," fields = Ok joined ->
  (forall req, requests_get w (count_requests tr) req = HttpJson (VDict d)) ->
  lookup "error" d = None ->
  data_is_array d ->
  (forall path, json_dump w (VDict d) path = None) ->
  exists evs,
    get_mapillary_images_metadata w minLon minLat maxLon maxLat fields token
      outpath limit tr = (Ok (VDict d), tr ++ evs)
    /\ (existsb is_truncation_warning evs = true
        <-> Z.of_nat (List.length (returned_records (VDict d))) = n).
Proof.
  intros Hgood Hn Hjoin Hnet Herr Hdata Hdump.
  apply valid_query_arguments_checks in Hgood.
  destruct Hgood as (lon1 & lat1 & lon2 & lat2 & n' & E1 & E2 & E3 & E4 & B1
                     & B2 & B3 & B4 & G1 & G2 & L1 & L2 & T1).
  rewrite Hn in L1. injection L1 as <-.
  unfold get_mapillary_images_metadata.
  rewrite E1, E2, E3, E4, B1, B2, B3, B4, G1, G2, Hn, L2, T1.
  cbn [negb orb]. step. rewrite Hjoin.
  unfold http_get. rewrite Hnet.
  cbv beta iota delta [py_in py_get]. rewrite (lookup_none_not_key _ _ Herr).
  cbv iota. unfold returned_records.
  destruct Hdata as [Hnone | [l Hsome]].
  - rewrite Hnone. cbv beta iota delta [truthy].
    destruct (when_path_dump_ok w outpath (VDict d) (tr ++ [ENet
      (mkRequest "https://graph.mapillary.com/images" (lon1, lat1, lon2, lat2)
         n token joined 30)]) Hdump) as (evs & -> & Hevs).
    eexists. rewrite <- app_assoc. split; [reflexivity|].
    simpl. rewrite Hevs. split; [discriminate|].
    intros <-. simpl in L2. discriminate.
  - rewrite Hsome. destruct l as [|r l].
    + cbv beta iota delta [truthy].
      destruct (when_path_dump_ok w outpath (VDict d) (tr ++ [ENet
        (mkRequest "https://graph.mapillary.com/images"
           (lon1, lat1, lon2, lat2) n token joined 30)]) Hdump)
        as (evs & -> & Hevs).
      eexists. rewrite <- app_assoc. split; [reflexivity|].
      simpl. rewrite Hevs. split; [discriminate|].
      intros <-. simpl in L2. discriminate.
    + cbv beta iota delta [truthy py_len].
      destruct (Z.of_nat (List.length (r :: l)) =? n)%Z eqn:Hcount.
      * destruct (when_path_dump_ok w outpath (VDict d) ((tr ++ [ENet
          (mkRequest "https://graph.mapillary.com/images"
             (lon1, lat1, lon2, lat2) n token joined 30)])
          ++ [EPrint (WTruncated n)]) Hdump) as (evs & -> & Hevs).
        eexists. rewrite <- !app_assoc. split; [reflexivity|].
        simpl. split; [intros _; now apply Z.eqb_eq | reflexivity].
      * destruct (when_path_dump_ok w outpath (VDict d) (tr ++ [ENet
          (mkRequest "https://graph.mapillary.com/images"
             (lon1, lat1, lon2, lat2) n token joined 30)]) Hdump)
          as (evs & -> & Hevs).
        eexists. rewrite <- app_assoc. split; [reflexivity|].
        simpl. rewrite Hevs. split; [discriminate|].
        intros H. apply Z.eqb_neq in Hcount. contradiction.
Qed.

(* ================================================================== *)
(** ** The record projector *)
(* ================================================================== *)

(** Saving inside the projector never raises (lines 442-446). *)
Lemma save_step_ok w gdf outpath tr :
  exists evs,
    when_path outpath
      (fun path =>
         try_except (gdf_to_file w gdf path) any_exception
           (fun e => emit (EPrint (WSaveFailed path e)))) tr
    = (Ok tt, tr ++ evs)
    /\ existsb is_processing_warning evs = false.
Proof.
  unfold when_path. destruct outpath as [path|].
  - destruct (negb (path =? "")).
    + unfold gdf_to_file. destruct (to_file w gdf path) as [e|]; step;
        eexists; split; reflexivity.
    + exists []. step. now rewrite app_nil_r.
  - exists []. step. now rewrite app_nil_r.
Qed.

Lemma project_records_ok w payload outpath fp tr as_df geometry points :
  from_records w payload = Ok as_df ->
  column "geometry" as_df = Some geometry ->
  series_apply (get_coordinates_as_point w) geometry = Ok points ->
  exists evs,
    project_records w payload outpath fp tr
    = (Ok (filter_rows
             (selected_columns_to_str w
                (GeoDataFrame (set_column "geometry" points as_df)) TList) fp),
       tr ++ evs)
    /\ existsb is_processing_warning evs = false.
Proof.
  intros Hfrom Hcol Happly.
  unfold project_records, bind, lift, ret. rewrite Hfrom, Hcol, Happly.
  destruct (save_step_ok w
              (filter_rows
                 (selected_columns_to_str w
                    (GeoDataFrame (set_column "geometry" points as_df)) TList) fp)
              outpath tr) as (evs & Hsave & Hevs).
  exists evs. rewrite Hsave. now split.
Qed.

Lemma project_records_no_table w payload outpath fp tr e :
  from_records w payload = Raise e ->
  project_records w payload outpath fp tr = (Raise e, tr).
Proof. intros H. unfold project_records. step. now rewrite H. Qed.

Lemma project_records_no_geometry w payload outpath fp tr as_df :
  from_records w payload = Ok as_df ->
  column "geometry" as_df = None ->
  project_records w payload outpath fp tr
  = (Raise (mkExn ValueError "No 'geometry' field found in data records"), tr).
Proof. intros H1 H2. unfold project_records. step. now rewrite H1, H2. Qed.

Lemma project_records_bad_geometry w payload outpath fp tr as_df geometry e :
  from_records w payload = Ok as_df ->
  column "geometry" as_df = Some geometry ->
  series_apply (get_coordinates_as_point w) geometry = Raise e ->
  project_records w payload outpath fp tr = (Raise e, tr).
Proof.
  intros H1 H2 H3. unfold project_records. step. now rewrite H1, H2, H3.
Qed.

(** The [try ... except Exception] of lines 426-451. *)
Lemma mapillary_data_to_gdf_payload w d payload outpath fp tr :
  lookup "data" d = Some payload ->
  truthy payload = true ->
  mapillary_data_to_gdf w (VDict d) outpath fp tr
  = match project_records w payload outpath fp tr with
    | (Ok gdf, tr') => (Ok gdf, tr')
    | (Raise e, tr') => (Ok empty_GeoDataFrame, tr' ++ [EPrint (WProcessing e)])
    end.
Proof.
  intros Hpayload Htruthy. unfold mapillary_data_to_gdf.
  rewrite Hpayload, Htruthy. step.
  destruct (project_records w payload outpath fp tr) as [[gdf|e] tr'];
    reflexivity.
Qed.

(** A save that fails inside the projector is reported on its own and the
    collection is returned all the same (lines 442-446). *)
Lemma project_records_failed_save w payload path fp tr as_df geometry points e :
  from_records w payload = Ok as_df ->
  column "geometry" as_df = Some geometry ->
  series_apply (get_coordinates_as_point w) geometry = Ok points ->
  path <> "" ->
  to_file w
    (filter_rows
       (selected_columns_to_str w
          (GeoDataFrame (set_column "geometry" points as_df)) TList) fp)
    path = Some e ->
  project_records w payload (Some path) fp tr
  = (Ok (filter_rows
           (selected_columns_to_str w
              (GeoDataFrame (set_column "geometry" points as_df)) TList) fp),
     tr ++ [EPrint (WSaveFailed path e)]).
Proof.
  intros Hfrom Hcol Happly Hpath Hsave.
  unfold project_records, bind, lift, ret. rewrite Hfrom, Hcol, Happly.
  unfold when_path. apply String.eqb_neq in Hpath. rewrite Hpath.
  cbn [negb]. unfold gdf_to_file. rewrite Hsave. reflexivity.
Qed.

(** C10.  On a dictionary the projector never raises: a missing or falsy
    [data] entry gives the empty collection and nothing is printed; when a
    step over a truthy [data] entry raises (among them: no geometry column, a
    geometry cell that cannot be turned into a point) the warning is printed
    and the empty collection returned.  Only an input that is not a
    dictionary raises.  (A save that fails is caught on its own, lines
    442-446: it raises nothing either, and the collection is returned.) *)
Theorem projector_returns_on_every_dictionary
  (w : World) (outpath : option string) (fp : option polygon) (tr : trace) :
  (forall d, exists gdf tr',
     mapillary_data_to_gdf w (VDict d) outpath fp tr = (Ok gdf, tr'))
  /\ (forall d payload,
        py_get (VDict d) "data" VNone = Ok payload ->
        truthy payload = false ->
        mapillary_data_to_gdf w (VDict d) outpath fp tr
        = (Ok empty_GeoDataFrame, tr))
  /\ (forall d payload e tr1,
        lookup "data" d = Some payload ->
        truthy payload = true ->
        project_records w payload outpath fp tr = (Raise e, tr1) ->
        mapillary_data_to_gdf w (VDict d) outpath fp tr
        = (Ok empty_GeoDataFrame, tr1 ++ [EPrint (WProcessing e)]))
  /\ (forall d payload as_df,
        lookup "data" d = Some payload ->
        truthy payload = true ->
        from_records w payload = Ok as_df ->
        column "geometry" as_df = None ->
        mapillary_data_to_gdf w (VDict d) outpath fp tr
        = (Ok empty_GeoDataFrame,
           tr ++ [EPrint (WProcessing
                    (mkExn ValueError
                       "No 'geometry' field found in data records"))]))
  /\ (forall d payload as_df geometry e,
        lookup "data" d = Some payload ->
        truthy payload = true ->
        from_records w payload = Ok as_df ->
        column "geometry" as_df = Some geometry ->
        series_apply (get_coordinates_as_point w) geometry = Raise e ->
        mapillary_data_to_gdf w (VDict d) outpath fp tr
        = (Ok empty_GeoDataFrame, tr ++ [EPrint (WProcessing e)]))
  /\ (forall v,
        type_of v <> TDict ->
        mapillary_data_to_gdf w v outpath fp tr
        = (Raise (mkExn ValueError
                    "Data must be a dictionary (Mapillary API response)"),
           tr))
  /\ (forall d payload as_df geometry points path e,
        lookup "data" d = Some payload ->
        truthy payload = true ->
        from_records w payload = Ok as_df ->
        column "geometry" as_df = Some geometry ->
        series_apply (get_coordinates_as_point w) geometry = Ok points ->
        path <> "" ->
        to_file w
          (filter_rows
             (selected_columns_to_str w
                (GeoDataFrame (set_column "geometry" points as_df)) TList) fp)
          path = Some e ->
        mapillary_data_to_gdf w (VDict d) (Some path) fp tr
        = (Ok (filter_rows
                 (selected_columns_to_str w
                    (GeoDataFrame (set_column "geometry" points as_df)) TList)
                 fp),
           tr ++ [EPrint (WSaveFailed path e)])).
Proof.
  split; [|split; [|split; [|split; [|split; [|split]]]]].
  - intros d. destruct (lookup "data" d) as [payload|] eqn:Hpayload.
    + destruct (truthy payload) eqn:Htruthy.
      * rewrite (mapillary_data_to_gdf_payload _ _ _ _ _ _ Hpayload Htruthy).
        destruct (project_records w payload outpath fp tr) as [[gdf|e] tr'];
          eauto.
      * unfold mapillary_data_to_gdf. rewrite Hpayload, Htruthy. step. eauto.
    + unfold mapillary_data_to_gdf. rewrite Hpayload. step. eauto.
  - intros d payload Hget Hfalsy. unfold mapillary_data_to_gdf.
    simpl in Hget. destruct (lookup "data" d) as [x|].
    + injection Hget as ->. now rewrite Hfalsy.
    + reflexivity.
  - intros d payload e tr1 Hpayload Htruthy Hraise.
    rewrite (mapillary_data_to_gdf_payload _ _ _ _ _ _ Hpayload Htruthy).
    now rewrite Hraise.
  - intros d payload as_df Hpayload Htruthy Hfrom Hcol.
    rewrite (mapillary_data_to_gdf_payload _ _ _ _ _ _ Hpayload Htruthy).
    now rewrite (project_records_no_geometry _ _ _ _ _ _ Hfrom Hcol).
  - intros d payload as_df geometry e Hpayload Htruthy Hfrom Hcol Happly.
    rewrite (mapillary_data_to_gdf_payload _ _ _ _ _ _ Hpayload Htruthy).
    now rewrite (project_records_bad_geometry _ _ _ _ _ _ _ _ Hfrom Hcol Happly).
  - intros v Hv. destruct v; try reflexivity. now contradiction Hv.
  - intros d payload as_df geometry points path e Hpayload Htruthy Hfrom Hcol
           Happly Hpath Hsave.
    rewrite (mapillary_data_to_gdf_payload _ _ _ _ _ _ Hpayload Htruthy).
    now rewrite (project_records_failed_save _ _ _ _ _ _ _ _ _
                   Hfrom Hcol Happly Hpath Hsave).
Qed.

(* ================================================================== *)
(** ** Column coercion *)
(* ================================================================== *)

Lemma check_type_by_first_valid_find cells :
  check_type_by_first_valid cells = option_map type_of (first_truthy cells).
Proof.
  unfold first_truthy.
  induction cells as [|c cells IH]; simpl; [reflexivity|].
  destruct (truthy c); [reflexivity | exact IH].
Qed.

Lemma type_is_list_first_truthy cells :
  type_is (check_type_by_first_valid cells) TList
  = match first_truthy cells with
    | Some (VList _) => true
    | _ => false
    end.
Proof.
  rewrite check_type_by_first_valid_find.
  destruct (first_truthy cells) as [[]|]; reflexivity.
Qed.

(** C9 (as the code has it).  A column of the table is stringified (every
    cell replaced by its string form) when the first truthy value of the
    column is a list, and left as it is otherwise; the table keeps its
    columns, their names and order, and its rows. *)
Theorem column_stringified_iff_first_truthy_is_list
  (w : World) (df : DataFrame) (i : nat) (name : string) (cells : list value) :
  nth_error (columns df) i = Some (name, cells) ->
  nth_error (columns (selected_columns_to_str w df TList)) i
  = Some (name,
          match first_truthy cells with
          | Some (VList _) => stringified w cells
          | _ => cells
          end)
  /\ List.length (columns (selected_columns_to_str w df TList))
     = List.length (columns df)
  /\ nrows (selected_columns_to_str w df TList) = nrows df.
Proof.
  intros Hcol. unfold selected_columns_to_str. simpl.
  split; [|split; [apply length_map | reflexivity]].
  rewrite nth_error_map, Hcol. simpl.
  rewrite type_is_list_first_truthy.
  destruct (first_truthy cells) as [[]|]; reflexivity.
Qed.

(* ================================================================== *)
(** ** Tables built from records *)
(* ================================================================== *)

Lemma as_records_dicts recs : as_records (map VDict recs) = Some recs.
Proof.
  induction recs as [|r recs IH]; simpl; [reflexivity | now rewrite IH].
Qed.

Lemma from_records_dicts w recs :
  from_records w (VList (map VDict recs)) = Ok (frame_of_records recs).
Proof. unfold from_records. now rewrite as_records_dicts. Qed.

Lemma find_named_column (g : string -> list value) names name :
  option_map snd
    (find (fun c : string * list value => fst c =? name)
          (map (fun nm => (nm, g nm)) names))
  = if existsb (fun nm => nm =? name) names then Some (g name) else None.
Proof.
  induction names as [|nm names IH]; simpl; [reflexivity|].
  destruct (nm =? name) eqn:E; simpl.
  - apply String.eqb_eq in E. now subst.
  - exact IH.
Qed.

Lemma column_frame_of_records name recs :
  column name (frame_of_records recs)
  = if existsb (fun nm => nm =? name) (union_names (map (map fst) recs))
    then Some (map (cell name) recs) else None.
Proof.
  unfold column, frame_of_records. simpl.
  apply (find_named_column (fun nm => map (cell nm) recs)).
Qed.











(* ================================================================== *)
(** ** Spatial filters *)
(* ================================================================== *)

(** One turn of the loop of [filter_metadata_with_polygon]. *)
Lemma filter_item_step w P item kept tr :
  try_except
    (geometry <- lift (py_getitem item "geometry") ;;
     coords <- lift (py_getitem geometry "coordinates") ;;
     p <- lift (Point w coords) ;;
     if contains P p then ret (kept ++ [item]) else ret kept)
    (caught_in [KeyError; TypeError; ValueError])
    (fun e => emit (EPrint (WSkipMalformed e)) ;; ret kept) tr
  = match item_point w item with
    | Ok p => (Ok (if contains P p then kept ++ [item] else kept), tr)
    | Raise e =>
        if caught_in [KeyError; TypeError; ValueError] e
        then (Ok kept, tr ++ [EPrint (WSkipMalformed e)])
        else (Raise e, tr)
    end.
Proof.
  unfold item_point, obind. step.
  destruct (py_getitem item "geometry") as [geometry|e].
  - destruct (py_getitem geometry "coordinates") as [coords|e].
    + destruct (Point w coords) as [p|e].
      * destruct (contains P p); reflexivity.
      * destruct (caught_in _ e); reflexivity.
    + destruct (caught_in _ e); reflexivity.
  - destruct (caught_in _ e); reflexivity.
Qed.

Lemma filter_items_spec w P items :
  (forall item e, In item items -> item_point w item = Raise e ->
                  caught_in [KeyError; TypeError; ValueError] e = true) ->
  forall kept tr,
  exists evs,
    filter_items w P items kept tr
    = (Ok (kept ++ filter (strictly_inside w P) items), tr ++ evs).
Proof.
  induction items as [|item items IH]; intros Hcaught kept tr.
  - exists []. simpl. unfold ret. now rewrite !app_nil_r.
  - cbn [filter_items]. rewrite bind_run, filter_item_step.
    cbn [filter].
    destruct (item_point w item) as [p|e] eqn:Hp.
    + assert (strictly_inside w P item = contains P p) as ->
        by (unfold strictly_inside; now rewrite Hp).
      destruct (IH (fun i e H => Hcaught i e (or_intror H))
                   (if contains P p then kept ++ [item] else kept) tr)
        as (evs & ->).
      exists evs. destruct (contains P p); [|reflexivity].
      now rewrite <- app_assoc.
    + assert (strictly_inside w P item = false) as ->
        by (unfold strictly_inside; now rewrite Hp).
      rewrite (Hcaught item e (or_introl eq_refl) Hp).
      destruct (IH (fun i e H => Hcaught i e (or_intror H)) kept
                   (tr ++ [EPrint (WSkipMalformed e)])) as (evs & ->).
      eexists. now rewrite <- app_assoc.
Qed.

(** What a polygon contains it intersects; the converse fails on the
    boundary. *)
Lemma contains_intersects P p : contains P p = true -> intersects P p = true.
Proof.
  unfold contains, intersects. destruct (locate_point P p); auto; discriminate.
Qed.

Lemma select_map_filter (f : value -> bool) cells :
  select (map f cells) cells = filter f cells.
Proof.
  induction cells as [|c cells IH]; simpl; [reflexivity|].
  destruct (f c); now rewrite IH.
Qed.

Lemma column_take_rows name df mask :
  column name (take_rows df mask) = option_map (select mask) (column name df).
Proof.
  unfold column, take_rows. simpl.
  induction (columns df) as [|[nm cells] cols IH]; simpl; [reflexivity|].
  destruct (nm =? name); [reflexivity | exact IH].
Qed.

(** The row filter of the projector, seen from outside: with a non-empty
    polygon the collection returned is the unfiltered one restricted to the
    rows that intersect the polygon. *)
Lemma projector_filter_is_intersects w data outpath P tr :
  polygon_truthy P = true ->
  fst (mapillary_data_to_gdf w data outpath (Some P) tr)
  = match fst (mapillary_data_to_gdf w data outpath None tr) with
    | Ok full => Ok (take_rows full (gdf_intersects full P))
    | Raise e => Raise e
    end.
Proof.
  intros HP. destruct data; try reflexivity.
  destruct (lookup "data" d) as [payload|] eqn:Hpayload.
  2:{ unfold mapillary_data_to_gdf. now rewrite Hpayload. }
  destruct (truthy payload) eqn:Htruthy.
  2:{ unfold mapillary_data_to_gdf. now rewrite Hpayload, Htruthy. }
  rewrite !(mapillary_data_to_gdf_payload _ _ _ _ _ _ Hpayload Htruthy).
  destruct (from_records w payload) as [as_df|e] eqn:Hfrom.
  2:{ now rewrite !(project_records_no_table _ _ _ _ _ _ Hfrom). }
  destruct (column "geometry" as_df) as [geometry|] eqn:Hcol.
  2:{ now rewrite !(project_records_no_geometry _ _ _ _ _ _ Hfrom Hcol). }
  destruct (series_apply (get_coordinates_as_point w) geometry)
    as [points|e] eqn:Happly.
  2:{ now rewrite !(project_records_bad_geometry _ _ _ _ _ _ _ _
                      Hfrom Hcol Happly). }
  destruct (project_records_ok w payload outpath (Some P) tr _ _ _
              Hfrom Hcol Happly) as (evs1 & -> & _).
  destruct (project_records_ok w payload outpath None tr _ _ _
              Hfrom Hcol Happly) as (evs2 & -> & _).
  simpl. now rewrite HP.
Qed.

(** C1 (as the code has it).  [filter_metadata_with_polygon] keeps exactly
    the records whose point the polygon contains (interior only).  The filter
    that the orchestrator applies to the records of a tile is the one of the
    projector, and it keeps exactly the rows whose point intersects the
    polygon: interior or boundary. *)
Theorem filters_keep_contained_items_and_intersecting_rows
  (w : World) (P : polygon) :
  (forall d payload items tr,
     lookup "data" d = Some payload ->
     truthy payload = true ->
     py_iter payload = Ok items ->
     (forall item e, In item items -> item_point w item = Raise e ->
                     caught_in [KeyError; TypeError; ValueError] e = true) ->
     exists evs,
       filter_metadata_with_polygon w (VDict d) P tr
       = (Ok (VDict (dict_set "data"
                       (VList (filter (strictly_inside w P) items)) d)),
          tr ++ evs))
  /\ (forall items item,
        In item (filter (strictly_inside w P) items)
        <-> In item items
            /\ exists p, item_point w item = Ok p /\ contains P p = true)
  /\ (forall data outpath tr,
        polygon_truthy P = true ->
        fst (mapillary_data_to_gdf w data outpath (Some P) tr)
        = match fst (mapillary_data_to_gdf w data outpath None tr) with
          | Ok full => Ok (take_rows full (gdf_intersects full P))
          | Raise e => Raise e
          end)
  /\ (forall full cells,
        column "geometry" full = Some cells ->
        column "geometry" (take_rows full (gdf_intersects full P))
        = Some (filter (cell_intersects P) cells))
  /\ (forall cells c,
        In c (filter (cell_intersects P) cells)
        <-> In c cells /\ exists p, c = VPoint p /\ intersects P p = true).
Proof.
  split; [|split; [|split; [|split]]].
  - intros d payload items tr Hpayload Htruthy Hiter Hcaught.
    unfold filter_metadata_with_polygon. step. simpl py_get.
    rewrite Hpayload, Htruthy, Hiter. cbn [negb]. cbv beta.
    destruct (filter_items_spec w P items Hcaught [] tr) as (evs & ->).
    now exists evs.
  - intros items item. rewrite filter_In. unfold strictly_inside.
    split; intros [Hin Hinside]; (split; [exact Hin|]).
    + destruct (item_point w item) as [p|]; [eauto | discriminate].
    + destruct Hinside as (p & -> & Hc). exact Hc.
  - intros data outpath tr HP. now apply projector_filter_is_intersects.
  - intros full cells Hcol. rewrite column_take_rows, Hcol. simpl.
    unfold gdf_intersects. rewrite Hcol.
    f_equal. apply (select_map_filter (cell_intersects P)).
  - intros cells c. rewrite filter_In.
    split; intros [Hin Hc]; (split; [exact Hin|]).
    + destruct c; try discriminate. eauto.
    + destruct Hc as (p & -> & Hp). exact Hp.
Qed.

(* ================================================================== *)
(** ** The tiled orchestrator *)
(* ================================================================== *)

Lemma resort_bbox_order bbox :
  resort_bbox bbox = [south bbox; west bbox; north bbox; east bbox].
Proof. reflexivity. Qed.

(** A tile whose (lon, lat) rectangle is disjoint from the region is
    skipped. *)
Lemma tile_loop_skips w P token outpath bbox rest gdfs tr :
  disjoint (tile_bbox_to_box bbox false) P = true ->
  tile_loop w P token outpath (bbox :: rest) gdfs tr
  = tile_loop w P token outpath rest gdfs tr.
Proof. intros H. cbn [tile_loop]. now rewrite H. Qed.

(** Any other tile is queried, with (south, west, north, east) for
    (minLon, minLat, maxLon, maxLat), the caller's token for [fields] and the
    module's token for [token]. *)
Lemma tile_loop_queries w P token outpath bbox rest gdfs tr :
  disjoint (tile_bbox_to_box bbox false) P = false ->
  tile_loop w P token outpath (bbox :: rest) gdfs tr
  = (data <- get_mapillary_images_metadata w
               (VFloat (FFin (south bbox))) (VFloat (FFin (west bbox)))
               (VFloat (FFin (north bbox))) (VFloat (FFin (east bbox)))
               token (VStr (MAPPILARY_TOKEN w)) None (VInt 5000) ;;
     payload <- lift (py_get data "data" VNone) ;;
     if truthy payload then
       gdf <- mapillary_data_to_gdf w data outpath (Some P) ;;
       tile_loop w P token outpath rest (gdfs ++ [gdf])
     else tile_loop w P token outpath rest gdfs) tr.
Proof. intros H. cbn [tile_loop]. now rewrite H. Qed.

Lemma disjoint_empty_region A : disjoint A [] = true.
Proof.
  unfold disjoint. simpl.
  assert (existsb (fun _ : qpt * qpt => false) (edges A) = false) as ->
    by (induction (edges A); auto).
  assert (existsb (touches_ring []) A = false) as ->
    by (induction A; auto).
  reflexivity.
Qed.

Lemma tile_loop_empty_region w token outpath bboxes :
  forall gdfs tr,
    tile_loop w [] token outpath bboxes gdfs tr = (Ok gdfs, tr).
Proof.
  induction bboxes as [|bbox rest IH]; intros gdfs tr; [reflexivity|].
  rewrite tile_loop_skips by apply disjoint_empty_region. apply IH.
Qed.

Lemma tiled_query_nothing_appended w P token zoom outpath tr bboxes tr1 :
  (let '(minLon, minLat, maxLon, maxLat) := bounds P in
   tilebboxes_from_bbox w minLat minLon maxLat maxLon zoom) = Ok bboxes ->
  tile_loop w P token outpath bboxes [] tr = (Ok [], tr1) ->
  tiled_mapillary_data_to_gdf w P token zoom outpath tr
  = (Raise (mkExn ValueError "No objects to concatenate"), tr1).
Proof.
  intros Htiles Hloop. unfold tiled_mapillary_data_to_gdf.
  destruct (bounds P) as [[[minLon minLat] maxLon] maxLat].
  rewrite bind_run. unfold lift at 1. rewrite Htiles.
  rewrite bind_run, Hloop. reflexivity.
Qed.

(** C2 (the code raises).  Whenever no per-tile collection is appended, the
    orchestrator raises the [ValueError] of [pd.concat] on an empty list; it
    raises on every empty region; and it raises when the single tile of a
    region answers with an empty [data] array. *)
Theorem tiled_query_raises_when_nothing_is_appended :
  (forall w P token zoom outpath tr bboxes tr1,
     (let '(minLon, minLat, maxLon, maxLat) := bounds P in
      tilebboxes_from_bbox w minLat minLon maxLat maxLon zoom) = Ok bboxes ->
     tile_loop w P token outpath bboxes [] tr = (Ok [], tr1) ->
     tiled_mapillary_data_to_gdf w P token zoom outpath tr
     = (Raise (mkExn ValueError "No objects to concatenate"), tr1))
  /\ (forall w token zoom outpath tr,
        exists e,
          tiled_mapillary_data_to_gdf w [] token zoom outpath tr
          = (Raise e, tr))
  /\ tiled_mapillary_data_to_gdf
       (example_world [tile_10E_20N] [HttpJson (response_of [])])
       region_10E_20N (VStr "abc") ZOOM_LEVEL None []
     = (Raise (mkExn ValueError "No objects to concatenate"),
        [ENet request_10E_20N]).
Proof.
  split; [|split].
  - intros. eapply tiled_query_nothing_appended; eassumption.
  - intros w token zoom outpath tr.
    destruct (tilebboxes_from_bbox w FNaN FNaN FNaN FNaN zoom)
      as [bboxes|e] eqn:Htiles.
    + eexists. eapply tiled_query_nothing_appended;
        [exact Htiles | apply tile_loop_empty_region].
    + exists e. unfold tiled_mapillary_data_to_gdf, bounds, bind, lift.
      now rewrite Htiles.
  - vm_compute. reflexivity.
Qed.

(** C3 (the code swaps the axes).  [resort_bbox] turns the tile bounds
    (west, south, east, north) into (south, west, north, east), and these are
    what the client receives as (minLon, minLat, maxLon, maxLat): for the
    tile at 10 E, 20 N the request carries the box (20, 10, 20.001, 10.001);
    for the tile at 100 E, 10 N the client rejects the longitude 100 as a
    latitude and the orchestrator raises before any request. *)
Theorem tiled_query_passes_south_as_min_longitude :
  (forall bbox,
     resort_bbox bbox = [south bbox; west bbox; north bbox; east bbox])
  /\ map (fun r => param_bbox r)
       (flat_map (fun ev => match ev with ENet r => [r] | _ => [] end)
          (snd (tiled_mapillary_data_to_gdf
                  (example_world [tile_10E_20N] [HttpJson (response_of [])])
                  region_10E_20N (VStr "abc") ZOOM_LEVEL None [])))
     = [(FFin (south tile_10E_20N), FFin (west tile_10E_20N),
         FFin (north tile_10E_20N), FFin (east tile_10E_20N))]
  /\ tiled_mapillary_data_to_gdf
       (example_world [tile_100E_10N] [HttpJson (response_of [])])
       region_100E_10N (VStr "abc") ZOOM_LEVEL None []
     = (Raise (mkExn ValueError msg_latitude), []).
Proof.
  split; [|split].
  - exact resort_bbox_order.
  - vm_compute. reflexivity.
  - vm_compute. reflexivity.
Qed.

(** C4 (as the code has it).  The rectangle of a tile that the loop tests
    against the region is built in (lon, lat) order, its vertices are
    (longitude, latitude) pairs: a tile is skipped when that rectangle is
    disjoint from the region and queried otherwise. *)
Theorem tile_polygon_is_built_in_lon_lat_order
  (w : World) (P : polygon) (token : value) (outpath : option string)
  (bbox : LngLatBbox) (rest : list LngLatBbox) (gdfs : list DataFrame)
  (tr : trace) :
  tile_bbox_to_box bbox false
  = [(east bbox, south bbox); (east bbox, north bbox);
     (west bbox, north bbox); (west bbox, south bbox)]
  /\ (disjoint [(east bbox, south bbox); (east bbox, north bbox);
                (west bbox, north bbox); (west bbox, south bbox)] P = true ->
      tile_loop w P token outpath (bbox :: rest) gdfs tr
      = tile_loop w P token outpath rest gdfs tr)
  /\ (disjoint [(east bbox, south bbox); (east bbox, north bbox);
                (west bbox, north bbox); (west bbox, south bbox)] P = false ->
      tile_loop w P token outpath (bbox :: rest) gdfs tr
      = (data <- get_mapillary_images_metadata w
                   (VFloat (FFin (south bbox))) (VFloat (FFin (west bbox)))
                   (VFloat (FFin (north bbox))) (VFloat (FFin (east bbox)))
                   token (VStr (MAPPILARY_TOKEN w)) None (VInt 5000) ;;
         payload <- lift (py_get data "data" VNone) ;;
         if truthy payload then
           gdf <- mapillary_data_to_gdf w data outpath (Some P) ;;
           tile_loop w P token outpath rest (gdfs ++ [gdf])
         else tile_loop w P token outpath rest gdfs) tr).
Proof.
  split; [reflexivity | split].
  - apply tile_loop_skips.
  - apply tile_loop_queries.
Qed.

(* ================================================================== *)
(** ** The properties on concrete inputs *)
(* ================================================================== *)

(** C1, counterexample.  The region is the unit square and its single tile
    answers with three records: inside, on the right edge, outside.  The
    orchestrator returns the record on the edge, whose point the polygon does
    not contain. *)
Lemma orchestrator_keeps_a_boundary_point :
  exists gdf tr cells p,
    tiled_mapillary_data_to_gdf
      (example_world [unit_tile] [HttpJson (response_of inside_edge_outside)])
      unit_square (VStr "abc") ZOOM_LEVEL None [] = (Ok gdf, tr)
    /\ column "geometry" gdf = Some cells
    /\ In (VPoint p) cells
    /\ contains unit_square p = false.
Proof.
  eexists. eexists. eexists. exists (mkPoint (FFin 1) (FFin (1 # 2))).
  split; [vm_compute; reflexivity|].
  split; [vm_compute; reflexivity|].
  split; [right; left; reflexivity | vm_compute; reflexivity].
Qed.

(** C1 on the three records: [filter_metadata_with_polygon] keeps the one
    inside only. *)
Lemma filters_on_inside_edge_outside :
  exists evs,
    filter_metadata_with_polygon quiet_world (response_of inside_edge_outside)
      unit_square []
    = (Ok (response_of [image 1 (1 # 2) (1 # 2)]), [] ++ evs).
Proof.
  apply (proj1 (filters_keep_contained_items_and_intersecting_rows
                  quiet_world unit_square)
           [("data", VList (map VDict inside_edge_outside))]
           (VList (map VDict inside_edge_outside))
           (map VDict inside_edge_outside) []);
    [reflexivity | reflexivity | reflexivity |].
  intros item e [<- | [<- | [<- | []]]]; vm_compute; discriminate.
Defined.

(** C4, counterexample.  In (lat, lon) order the rectangle of the tile at
    10 E, 20 N is disjoint from the region inside that tile, so the tile
    would be skipped; the orchestrator queries it. *)
Lemma tile_polygon_is_not_in_lat_lon_order :
  disjoint (tile_bbox_to_box tile_10E_20N true) region_10E_20N = true
  /\ tile_bbox_to_box tile_10E_20N false <> tile_bbox_to_box tile_10E_20N true
  /\ snd (tiled_mapillary_data_to_gdf
            (example_world [tile_10E_20N] [HttpJson (response_of [])])
            region_10E_20N (VStr "abc") ZOOM_LEVEL None [])
     = [ENet request_10E_20N].
Proof.
  split; [vm_compute; reflexivity|].
  split; [vm_compute; discriminate | vm_compute; reflexivity].
Qed.

(** C4 on the tile at 100 E, 10 N and the region at 10 E, 20 N: skipped. *)
Lemma tile_away_from_region_is_skipped :
  tile_loop quiet_world region_10E_20N (VStr "abc") None [tile_100E_10N] [] []
  = (Ok [], []).
Proof.
  exact (proj1 (proj2 (tile_polygon_is_built_in_lon_lat_order quiet_world
                         region_10E_20N (VStr "abc") None tile_100E_10N [] []
                         []))
           eq_refl).
Defined.

(** C5 on a [nan] longitude and on a failing network. *)
Lemma query_validation_on_nan_and_on_valid_arguments :
  (exists e,
     get_mapillary_images_metadata quiet_world (VFloat FNaN) (VInt 0) (VInt 1)
       (VInt 1) default_fields (VStr "t") None (VInt 10) []
     = (Raise e, [])
     /\ InvalidArgument e)
  /\ (forall e tr',
        get_mapillary_images_metadata
          (example_world [] [HttpFailure "timed out"])
          (VInt 0) (VInt 0) (VInt 1) (VInt 1) default_fields (VStr "t") None
          (VInt 10) []
        = (Raise e, tr') ->
        ~ InvalidArgument e).
Proof.
  split.
  - exact (proj1 (query_rejects_invalid_arguments_before_any_request
                    quiet_world (VFloat FNaN) (VInt 0) (VInt 1) (VInt 1)
                    default_fields (VStr "t") None (VInt 10) [])
             eq_refl).
  - exact (proj2 (query_rejects_invalid_arguments_before_any_request
                    (example_world [] [HttpFailure "timed out"])
                    (VInt 0) (VInt 0) (VInt 1) (VInt 1)
                    default_fields (VStr "t") None (VInt 10) [])
             eq_refl).
Defined.

(** C6 on a response of two records with the limit 2. *)
Lemma truncation_warning_on_two_records_limit_two :
  exists evs,
    get_mapillary_images_metadata
      (example_world []
         [HttpJson (response_of [image 1 (1 # 2) (1 # 2); image 2 1 (1 # 2)])])
      (VInt 0) (VInt 0) (VInt 1) (VInt 1) default_fields (VStr "t") None
      (VInt 2) []
    = (Ok (response_of [image 1 (1 # 2) (1 # 2); image 2 1 (1 # 2)]),
       [] ++ evs)
    /\ (existsb is_truncation_warning evs = true
        <-> Z.of_nat
              (List.length
                 (returned_records
                    (response_of [image 1 (1 # 2) (1 # 2); image 2 1 (1 # 2)])))
            = 2%Z).
Proof.
  apply (truncation_warning_iff_count_equals_limit
           (example_world []
              [HttpJson
                 (response_of [image 1 (1 # 2) (1 # 2); image 2 1 (1 # 2)])])
           (VInt 0) (VInt 0) (VInt 1) (VInt 1) default_fields (VStr "t") None
           (VInt 2) [] 2%Z
           "altitude,atomic_scale,camera_parameters,camera_type,captured_at,compass_angle,computed_altitude,computed_compass_angle,computed_geometry,computed_rotation,creator,exif_orientation,geometry,height,is_pano,make,model,thumb_original_url,merge_cc,sequence,width").
  - reflexivity.
  - reflexivity.
  - reflexivity.
  - intros req. reflexivity.
  - reflexivity.
  - right. eexists. reflexivity.
  - intros path. reflexivity.
Defined.



(** C9, counterexample.  The first record has no [computed_rotation], the
    second has a list: the first non-empty value of the column is a list, yet
    the projector returns the column as it was, the list not stringified.
    And when the first record has the number 0 there, the first non-empty
    value of the column is a scalar, yet the projector stringifies the
    column. *)
Lemma column_after_a_missing_cell_is_not_stringified :
  (exists gdf tr,
     mapillary_data_to_gdf quiet_world
       (response_of [image_without_rotation 1 (1 # 2) (1 # 2);
                     image 2 (1 # 4) (1 # 2)])
       None None [] = (Ok gdf, tr)
     /\ column "computed_rotation" gdf
        = Some [NaN; VList [VInt 1; VInt 0; VInt 2]]
     /\ first_nonempty [NaN; VList [VInt 1; VInt 0; VInt 2]]
        = Some (VList [VInt 1; VInt 0; VInt 2])
     /\ stringified quiet_world [NaN; VList [VInt 1; VInt 0; VInt 2]]
        <> [NaN; VList [VInt 1; VInt 0; VInt 2]])
  /\ (exists gdf tr,
        mapillary_data_to_gdf quiet_world
          (response_of [image_with_zero_rotation 1 (1 # 2) (1 # 2);
                        image 2 (1 # 4) (1 # 2)])
          None None [] = (Ok gdf, tr)
        /\ column "computed_rotation" gdf
           = Some [VStr "0"; VStr "[1, 0, 2]"]
        /\ first_nonempty [VInt 0; VList [VInt 1; VInt 0; VInt 2]]
           = Some (VInt 0)).
Proof.
  split.
  - eexists. eexists. split; [vm_compute; reflexivity|].
    split; [vm_compute; reflexivity|].
    split; [reflexivity | vm_compute; discriminate].
  - eexists. eexists. split; [vm_compute; reflexivity|].
    split; [vm_compute; reflexivity | reflexivity].
Qed.

(** C9 on the table of the three records: the column of lists is
    stringified. *)
Lemma rotation_column_is_stringified :
  nth_error
    (columns (selected_columns_to_str quiet_world
                (frame_of_records inside_edge_outside) TList)) 3
  = Some ("computed_rotation",
          [VStr "[1, 0, 2]"; VStr "[1, 0, 2]"; VStr "[1, 0, 2]"]).
Proof.
  exact (proj1 (column_stringified_iff_first_truthy_is_list quiet_world
                  (frame_of_records inside_edge_outside) 3 "computed_rotation"
                  [VList [VInt 1; VInt 0; VInt 2];
                   VList [VInt 1; VInt 0; VInt 2];
                   VList [VInt 1; VInt 0; VInt 2]]
                  eq_refl)).
Defined.

(** C10 on a payload without any geometry field. *)
Lemma projector_on_records_without_geometry :
  mapillary_data_to_gdf quiet_world (response_of [image_without_geometry 1])
    None None []
  = (Ok empty_GeoDataFrame,
     [] ++ [EPrint (WProcessing
              (mkExn ValueError "No 'geometry' field found in data records"))]).
Proof.
  exact (proj1 (proj2 (proj2 (proj2
           (projector_returns_on_every_dictionary quiet_world None None []))))
           [("data", VList [VDict (image_without_geometry 1)])]
           (VList [VDict (image_without_geometry 1)])
           (frame_of_records [image_without_geometry 1])
           eq_refl eq_refl eq_refl eq_refl).
Defined.

(* ================================================================== *)
(** ** More on the column coercion and on the projector *)
(* ================================================================== *)

Lemma stringified_has_no_list_type w cells :
  type_is (check_type_by_first_valid (stringified w cells)) TList = false.
Proof.
  unfold stringified.
  induction cells as [|c cells IH]; simpl; [reflexivity|].
  destruct (negb (py_str w c =? "")); [reflexivity | exact IH].
Qed.

(** X1.  Stringifying the list columns twice is stringifying them once:
    after one pass no column has a list as its first truthy value. *)
Theorem selected_columns_to_str_idempotent (w : World) (df : DataFrame) :
  selected_columns_to_str w (selected_columns_to_str w df TList) TList
  = selected_columns_to_str w df TList.
Proof.
  unfold selected_columns_to_str. simpl. f_equal.
  rewrite map_map. apply map_ext. intros [name cells]. simpl.
  destruct (type_is (check_type_by_first_valid cells) TList) eqn:E; simpl.
  - change (map (fun x => VStr (py_str w x)) cells) with (stringified w cells).
    now rewrite stringified_has_no_list_type.
  - now rewrite E.
Qed.

Lemma series_apply_points w cells points :
  series_apply (get_coordinates_as_point w) cells = Ok points ->
  Forall (fun c => exists p, c = VPoint p) points
  /\ List.length points = List.length cells.
Proof.
  revert points. induction cells as [|c cells IH]; intros points; simpl.
  - intros [= <-]. split; [constructor | reflexivity].
  - unfold get_coordinates_as_point at 1.
    destruct (py_getitem c "coordinates") as [coords|]; [|discriminate].
    simpl. destruct (Point w coords) as [p|]; [|discriminate]. simpl.
    destruct (series_apply (get_coordinates_as_point w) cells) as [rest|];
      [|discriminate].
    simpl. intros [= <-]. destruct (IH rest eq_refl) as [Hall Hlen].
    split; [constructor; eauto | simpl; now rewrite Hlen].
Qed.

Lemma column_set_column name cells df old :
  column name df = Some old ->
  column name (set_column name cells df) = Some cells.
Proof.
  unfold column, set_column. simpl.
  induction (columns df) as [|[nm cs] cols IH]; simpl; [discriminate|].
  destruct (nm =? name) eqn:E; simpl; rewrite E; [reflexivity | exact IH].
Qed.

Lemma column_selected w name df :
  column name (selected_columns_to_str w df TList)
  = option_map
      (fun cells =>
         if type_is (check_type_by_first_valid cells) TList
         then stringified w cells else cells)
      (column name df).
Proof.
  unfold column, selected_columns_to_str. simpl.
  induction (columns df) as [|[nm cs] cols IH]; simpl; [reflexivity|].
  destruct (type_is (check_type_by_first_valid cs) TList) eqn:E; simpl;
    (destruct (nm =? name); simpl; [now rewrite E | exact IH]).
Qed.

Lemma points_have_no_list_type points :
  Forall (fun c => exists p, c = VPoint p) points ->
  type_is (check_type_by_first_valid points) TList = false.
Proof.
  induction 1 as [|c points (p & ->) _ IH]; reflexivity.
Qed.

(** The collection the projector returns after a conversion that went
    through. *)
Lemma mapillary_data_to_gdf_inversion w data outpath fp tr gdf tr' :
  mapillary_data_to_gdf w data outpath fp tr = (Ok gdf, tr') ->
  gdf = empty_GeoDataFrame
  \/ exists d payload as_df geometry points,
       data = VDict d
       /\ lookup "data" d = Some payload
       /\ from_records w payload = Ok as_df
       /\ column "geometry" as_df = Some geometry
       /\ series_apply (get_coordinates_as_point w) geometry = Ok points
       /\ gdf = filter_rows
                  (selected_columns_to_str w
                     (GeoDataFrame (set_column "geometry" points as_df))
                     TList) fp.
Proof.
  destruct data; try discriminate.
  destruct (lookup "data" d) as [payload|] eqn:Hpayload.
  2:{ unfold mapillary_data_to_gdf. rewrite Hpayload. intros [= <- _]. auto. }
  destruct (truthy payload) eqn:Htruthy.
  2:{ unfold mapillary_data_to_gdf. rewrite Hpayload, Htruthy.
      intros [= <- _]. auto. }
  rewrite (mapillary_data_to_gdf_payload _ _ _ _ _ _ Hpayload Htruthy).
  destruct (from_records w payload) as [as_df|e] eqn:Hfrom.
  2:{ rewrite (project_records_no_table _ _ _ _ _ _ Hfrom).
      intros [= <- _]. auto. }
  destruct (column "geometry" as_df) as [geometry|] eqn:Hcol.
  2:{ rewrite (project_records_no_geometry _ _ _ _ _ _ Hfrom Hcol).
      intros [= <- _]. auto. }
  destruct (series_apply (get_coordinates_as_point w) geometry)
    as [points|e] eqn:Happly.
  2:{ rewrite (project_records_bad_geometry _ _ _ _ _ _ _ _ Hfrom Hcol Happly).
      intros [= <- _]. auto. }
  destruct (project_records_ok w payload outpath fp tr _ _ _ Hfrom Hcol Happly)
    as (evs & -> & _).
  intros [= <- _]. right. exists d, payload, as_df, geometry, points.
  repeat split; auto.
Qed.

(** X2.  Whatever the input, every cell of the geometry column of a
    collection the projector returns is a point (never the nan of a record
    without geometry), and with a non-empty filtering polygon each of these
    points intersects the polygon. *)
Theorem projected_geometry_cells_are_points_within_the_polygon
  (w : World) (data : value) (outpath : option string) (fp : option polygon)
  (tr tr' : trace) (gdf : DataFrame) (cells : list value) :
  mapillary_data_to_gdf w data outpath fp tr = (Ok gdf, tr') ->
  column "geometry" gdf = Some cells ->
  Forall (point_within fp) cells.
Proof.
  intros Hrun Hcells.
  destruct (mapillary_data_to_gdf_inversion _ _ _ _ _ _ _ Hrun)
    as [-> | (d & payload & as_df & geometry & points & _ & _ & _ & Hcol
              & Happly & ->)]; [discriminate|].
  destruct (series_apply_points _ _ _ Happly) as [Hpoints _].
  assert (column "geometry"
            (selected_columns_to_str w
               (GeoDataFrame (set_column "geometry" points as_df)) TList)
          = Some points) as Hsel.
  { rewrite column_selected. unfold GeoDataFrame.
    rewrite (column_set_column _ _ _ _ Hcol). simpl.
    now rewrite (points_have_no_list_type _ Hpoints). }
  unfold filter_rows in Hcells. destruct fp as [P|].
  - destruct (polygon_truthy P) eqn:HP.
    + rewrite column_take_rows, Hsel in Hcells. simpl in Hcells.
      unfold gdf_intersects in Hcells. rewrite Hsel in Hcells.
      injection Hcells as <-.
      change (fun c => match c with VPoint p => intersects P p | _ => false end)
        with (cell_intersects P).
      rewrite select_map_filter. apply Forall_forall. intros c Hc.
      apply filter_In in Hc. destruct Hc as [_ Hc].
      destruct c; try discriminate. exists p. split; [reflexivity | auto].
    + rewrite Hsel in Hcells. injection Hcells as <-.
      eapply Forall_impl; [|exact Hpoints].
      intros c (p & ->). exists p. split; [reflexivity|].
      intros Habs. rewrite HP in Habs. discriminate.
  - rewrite Hsel in Hcells. injection Hcells as <-.
    eapply Forall_impl; [|exact Hpoints].
    intros c (p & ->). exists p. now split.
Qed.

Lemma well_formed_frame_of_records recs : well_formed (frame_of_records recs).
Proof.
  unfold well_formed, frame_of_records. simpl. apply Forall_forall.
  intros c Hc. apply in_map_iff in Hc. destruct Hc as (name & <- & _).
  simpl. apply length_map.
Qed.

Lemma well_formed_set_column name cells df :
  well_formed df -> List.length cells = nrows df ->
  well_formed (set_column name cells df).
Proof.
  unfold well_formed, set_column. simpl. intros Hwf Hlen.
  apply Forall_forall. intros c Hc. apply in_map_iff in Hc.
  destruct Hc as (c0 & <- & Hc0).
  destruct (fst c0 =? name); [exact Hlen|].
  exact (proj1 (Forall_forall _ _) Hwf c0 Hc0).
Qed.

Lemma well_formed_selected w df :
  well_formed df -> well_formed (selected_columns_to_str w df TList).
Proof.
  unfold well_formed, selected_columns_to_str. simpl. intros Hwf.
  apply Forall_forall. intros c Hc. apply in_map_iff in Hc.
  destruct Hc as (c0 & <- & Hc0).
  pose proof (proj1 (Forall_forall _ _) Hwf c0 Hc0) as Hlen.
  destruct (type_is _ _); simpl; [now rewrite length_map | exact Hlen].
Qed.

Lemma length_select mask (cells : list value) :
  List.length mask = List.length cells ->
  List.length (select mask cells)
  = List.length (filter (fun b : bool => b) mask).
Proof.
  revert cells. induction mask as [|b mask IH]; intros [|c cells]; simpl;
    try discriminate; [reflexivity|].
  intros [= Hlen]. destruct b; simpl; now rewrite IH.
Qed.

Lemma well_formed_take_rows df mask :
  well_formed df -> List.length mask = nrows df ->
  well_formed (take_rows df mask).
Proof.
  unfold well_formed, take_rows. simpl. intros Hwf Hlen.
  apply Forall_forall. intros c Hc. apply in_map_iff in Hc.
  destruct Hc as (c0 & <- & Hc0). simpl.
  apply length_select.
  now rewrite (proj1 (Forall_forall _ _) Hwf c0 Hc0).
Qed.

Lemma names_set_column name cells df :
  map fst (columns (set_column name cells df)) = map fst (columns df).
Proof.
  unfold set_column. simpl. rewrite map_map. apply map_ext.
  intros c. now destruct (fst c =? name).
Qed.

Lemma names_selected w df :
  map fst (columns (selected_columns_to_str w df TList))
  = map fst (columns df).
Proof.
  unfold selected_columns_to_str. simpl. rewrite map_map. apply map_ext.
  intros c. now destruct (type_is _ _).
Qed.

Lemma names_take_rows df mask :
  map fst (columns (take_rows df mask)) = map fst (columns df).
Proof. unfold take_rows. simpl. now rewrite map_map. Qed.

Lemma names_frame_of_records recs :
  map fst (columns (frame_of_records recs))
  = union_names (map (map fst) recs).
Proof.
  unfold frame_of_records. simpl. rewrite map_map. simpl. apply map_id.
Qed.

Lemma length_gdf_intersects df P cells :
  well_formed df -> column "geometry" df = Some cells ->
  List.length (gdf_intersects df P) = nrows df.
Proof.
  intros Hwf Hcol. unfold gdf_intersects. rewrite Hcol, length_map.
  unfold column in Hcol.
  destruct (find (fun c => fst c =? "geometry") (columns df)) as [c|] eqn:Hfind;
    [|discriminate].
  injection Hcol as <-. apply find_some in Hfind.
  exact (proj1 (Forall_forall _ _) Hwf c (proj1 Hfind)).
Qed.

Lemma length_filter_le {A} (f : A -> bool) l :
  (List.length (filter f l) <= List.length l)%nat.
Proof.
  induction l as [|x l IH]; simpl; [constructor|].
  destruct (f x); simpl; [now apply le_n_S | now apply le_S].
Qed.

(** X3.  From a list of records the projector returns a well-formed table:
    every column has one cell per row, there are at most as many rows as
    records (exactly as many without a filtering polygon), and unless the
    batch was dropped the columns are the keys of the records, each once, in
    order of first appearance. *)
Theorem projected_table_is_well_formed
  (w : World) (d : list (string * value)) (recs : list (list (string * value)))
  (outpath : option string) (fp : option polygon) (tr tr' : trace)
  (gdf : DataFrame) :
  lookup "data" d = Some (VList (map VDict recs)) ->
  mapillary_data_to_gdf w (VDict d) outpath fp tr = (Ok gdf, tr') ->
  well_formed gdf
  /\ (nrows gdf <= List.length recs)%nat
  /\ (gdf = empty_GeoDataFrame
      \/ map fst (columns gdf) = union_names (map (map fst) recs)
         /\ (fp = None -> nrows gdf = List.length recs)).
Proof.
  intros Hdata Hrun.
  destruct (mapillary_data_to_gdf_inversion _ _ _ _ _ _ _ Hrun)
    as [-> | (d' & payload & as_df & geometry & points & [= <-] & Hpayload
              & Hfrom & Hcol & Happly & ->)].
  { split; [constructor | split; [apply Nat.le_0_l | now left]]. }
  rewrite Hdata in Hpayload. injection Hpayload as <-.
  rewrite from_records_dicts in Hfrom. injection Hfrom as <-.
  destruct (series_apply_points _ _ _ Happly) as [Hpoints Hlen].
  assert (List.length geometry = List.length recs) as Hgeo.
  { rewrite column_frame_of_records in Hcol.
    destruct (existsb _ _); [|discriminate]. injection Hcol as <-.
    apply length_map. }
  set (g := selected_columns_to_str w
              (GeoDataFrame (set_column "geometry" points
                               (frame_of_records recs))) TList).
  assert (well_formed g) as Hwf.
  { apply well_formed_selected, well_formed_set_column.
    - apply well_formed_frame_of_records.
    - simpl. congruence. }
  assert (map fst (columns g) = union_names (map (map fst) recs)) as Hnames.
  { unfold g, GeoDataFrame.
    now rewrite names_selected, names_set_column, names_frame_of_records. }
  assert (column "geometry" g = Some points) as Hg.
  { unfold g, GeoDataFrame. rewrite column_selected.
    rewrite (column_set_column _ _ _ _ Hcol). simpl.
    now rewrite (points_have_no_list_type _ Hpoints). }
  unfold filter_rows. destruct fp as [P|].
  - destruct (polygon_truthy P).
    + pose proof (length_gdf_intersects g P points Hwf Hg) as Hmask.
      split; [now apply well_formed_take_rows|]. split.
      * simpl. eapply Nat.le_trans; [apply length_filter_le|].
        rewrite Hmask. apply Nat.le_refl.
      * right. split; [now rewrite names_take_rows | discriminate].
    + split; [exact Hwf|]. split; [apply Nat.le_refl|].
      right. split; [exact Hnames | discriminate].
  - split; [exact Hwf|]. split; [apply Nat.le_refl|].
    right. split; [exact Hnames | reflexivity].
Qed.

(* ================================================================== *)
(** ** More on [filter_metadata_with_polygon] *)
(* ================================================================== *)

Lemma lookup_dict_set_same key v d : lookup key (dict_set key v d) = Some v.
Proof.
  induction d as [|[k x] d IH]; simpl.
  - now rewrite String.eqb_refl.
  - destruct (k =? key) eqn:E; simpl; rewrite E; [reflexivity | exact IH].
Qed.

Lemma lookup_dict_set_other key k v d :
  k <> key -> lookup k (dict_set key v d) = lookup k d.
Proof.
  intros Hk. induction d as [|[k0 x] d IH]; simpl.
  - destruct (key =? k) eqn:E; [|reflexivity].
    apply String.eqb_eq in E. now subst.
  - destruct (k0 =? key) eqn:E; simpl.
    + destruct (k0 =? k) eqn:E'; [|reflexivity].
      apply String.eqb_eq in E, E'. now subst.
    + now rewrite IH.
Qed.

Lemma dict_set_twice key v v' d :
  dict_set key v' (dict_set key v d) = dict_set key v' d.
Proof.
  induction d as [|[k x] d IH]; simpl.
  - now rewrite String.eqb_refl.
  - destruct (k =? key) eqn:E; simpl; rewrite E; [reflexivity | now rewrite IH].
Qed.

Lemma keys_dict_set key v d old :
  lookup key d = Some old -> map fst (dict_set key v d) = map fst d.
Proof.
  induction d as [|[k x] d IH]; simpl; [discriminate|].
  destruct (k =? key); simpl; [reflexivity|].
  intros H. now rewrite IH.
Qed.

Lemma filter_items_trace w P items :
  (forall item e, In item items -> item_point w item = Raise e ->
                  caught_in [KeyError; TypeError; ValueError] e = true) ->
  forall kept tr,
    filter_items w P items kept tr
    = (Ok (kept ++ filter (strictly_inside w P) items),
       tr ++ skip_warnings w items).
Proof.
  induction items as [|item items IH]; intros Hcaught kept tr.
  - simpl. unfold ret. now rewrite !app_nil_r.
  - cbn [filter_items]. rewrite bind_run, filter_item_step.
    cbn [filter skip_warnings flat_map].
    destruct (item_point w item) as [p|e] eqn:Hp.
    + assert (strictly_inside w P item = contains P p) as ->
        by (unfold strictly_inside; now rewrite Hp).
      rewrite (IH (fun i e H => Hcaught i e (or_intror H))).
      destruct (contains P p); [|reflexivity].
      now rewrite <- app_assoc.
    + assert (strictly_inside w P item = false) as ->
        by (unfold strictly_inside; now rewrite Hp).
      rewrite (Hcaught item e (or_introl eq_refl) Hp).
      rewrite (IH (fun i e H => Hcaught i e (or_intror H))).
      now rewrite <- app_assoc.
Qed.

Lemma skip_warnings_of_kept w P items :
  skip_warnings w (filter (strictly_inside w P) items) = [].
Proof.
  induction items as [|item items IH]; simpl; [reflexivity|].
  destruct (strictly_inside w P item) eqn:E; [|exact IH].
  simpl. unfold strictly_inside in E.
  destruct (item_point w item); [exact IH | discriminate].
Qed.

Lemma filter_twice {A} (f : A -> bool) l : filter f (filter f l) = filter f l.
Proof.
  induction l as [|x l IH]; simpl; [reflexivity|].
  destruct (f x) eqn:E; simpl; [now rewrite E, IH | exact IH].
Qed.

Lemma filter_metadata_first_run
  w P d payload items tr :
  lookup "data" d = Some payload ->
  truthy payload = true ->
  py_iter payload = Ok items ->
  (forall item e, In item items -> item_point w item = Raise e ->
                  caught_in [KeyError; TypeError; ValueError] e = true) ->
  filter_metadata_with_polygon w (VDict d) P tr
  = (Ok (VDict (dict_set "data"
                  (VList (filter (strictly_inside w P) items)) d)),
     tr ++ skip_warnings w items).
Proof.
  intros Hpayload Htruthy Hiter Hcaught.
  unfold filter_metadata_with_polygon. step. simpl py_get.
  rewrite Hpayload, Htruthy, Hiter. cbn [negb]. cbv beta.
  now rewrite (filter_items_trace w P items Hcaught).
Qed.

(** X4.  [filter_metadata_with_polygon] prints one warning for each record
    whose point cannot be built and nothing else, keeps the contained
    records in their order, and returns every other entry of the response,
    and the order of its keys, as they were. *)
Theorem filter_metadata_keeps_the_rest_of_the_response
  (w : World) (P : polygon) (d : list (string * value)) (payload : value)
  (items : list value) (tr : trace) :
  lookup "data" d = Some payload ->
  truthy payload = true ->
  py_iter payload = Ok items ->
  (forall item e, In item items -> item_point w item = Raise e ->
                  caught_in [KeyError; TypeError; ValueError] e = true) ->
  exists filtered,
    filter_metadata_with_polygon w (VDict d) P tr
    = (Ok (VDict filtered), tr ++ skip_warnings w items)
    /\ lookup "data" filtered
       = Some (VList (filter (strictly_inside w P) items))
    /\ (forall key, key <> "data" -> lookup key filtered = lookup key d)
    /\ map fst filtered = map fst d.
Proof.
  intros Hpayload Htruthy Hiter Hcaught.
  exists (dict_set "data" (VList (filter (strictly_inside w P) items)) d).
  split; [|split; [|split]].
  - exact (filter_metadata_first_run w P d payload items tr
             Hpayload Htruthy Hiter Hcaught).
  - apply lookup_dict_set_same.
  - intros key Hkey. now apply lookup_dict_set_other.
  - exact (keys_dict_set _ _ _ _ Hpayload).
Qed.

(** X5.  [filter_metadata_with_polygon] is idempotent: filtering its own
    result by the same polygon returns that result and prints nothing. *)
Theorem filter_metadata_is_idempotent
  (w : World) (P : polygon) (d : list (string * value)) (payload : value)
  (items : list value) (tr tr' tr2 : trace) (out : value) :
  lookup "data" d = Some payload ->
  truthy payload = true ->
  py_iter payload = Ok items ->
  (forall item e, In item items -> item_point w item = Raise e ->
                  caught_in [KeyError; TypeError; ValueError] e = true) ->
  filter_metadata_with_polygon w (VDict d) P tr = (Ok out, tr') ->
  filter_metadata_with_polygon w out P tr2 = (Ok out, tr2).
Proof.
  intros Hpayload Htruthy Hiter Hcaught Hrun.
  rewrite (filter_metadata_first_run w P d payload items tr
             Hpayload Htruthy Hiter Hcaught) in Hrun. injection Hrun as <- _.
  unfold filter_metadata_with_polygon. step. simpl py_get.
  rewrite lookup_dict_set_same.
  destruct (filter (strictly_inside w P) items) as [|k kept] eqn:Hkept;
    [reflexivity|].
  cbn [truthy negb py_iter]. cbv beta iota.
  rewrite filter_items_trace.
  - rewrite <- Hkept, filter_twice, skip_warnings_of_kept, app_nil_r.
    simpl. now rewrite dict_set_twice.
  - intros item e Hin He. rewrite <- Hkept in Hin.
    apply filter_In in Hin. destruct Hin as [_ Hin].
    unfold strictly_inside in Hin. rewrite He in Hin. discriminate.
Qed.

(* ================================================================== *)
(** ** More on the query client *)
(* ================================================================== *)




(** The request a call sends once its arguments are accepted. *)
Lemma client_after_validation w minLon minLat maxLon maxLat fields token
  outpath limit tr n joined :
  valid_query_arguments minLon minLat maxLon maxLat token limit = true ->
  as_int limit = Some n ->
  py_join "," fields = Ok joined ->
  exists req,
    param_access_token req = token /\ param_limit req = n
    /\ param_fields req = joined
    /\ get_mapillary_images_metadata w minLon minLat maxLon maxLat fields
         token outpath limit tr
       = match requests_get w (count_requests tr) req with
         | HttpFailure e =>
             (Raise (mkExn RequestException
                       ("Failed to fetch data from Mapillary API: " ++ e)),
              tr ++ [ENet req])
         | HttpBodyNotJson e =>
             (Raise (mkExn ValueError
                       ("Invalid JSON response from Mapillary API: " ++ e)),
              tr ++ [ENet req])
         | HttpJson as_dict =>
             (has_error <- lift (py_in "error" as_dict) ;;
              if (has_error : bool) then
                err <- lift (py_get as_dict "error" (VDict [])) ;;
                error_msg <- lift (py_get err "message"
                                     (VStr "Unknown API error")) ;;
                raise (mkExn ValueError
                         ("Mapillary API error: " ++ py_str w error_msg))
              else
                data <- lift (py_get as_dict "data" VNone) ;;
                (if truthy data then
                   size <- lift (py_len data) ;;
                   if (Z.of_nat size =? n)%Z
                   then emit (EPrint (WTruncated n))
                   else ret tt
                 else ret tt) ;;
                when_path outpath (dump_json w as_dict) ;;
                ret as_dict) (tr ++ [ENet req])
         end.
Proof.
  intros Hgood Hn Hjoin.
  apply valid_query_arguments_checks in Hgood.
  destruct Hgood as (lon1 & lat1 & lon2 & lat2 & n' & E1 & E2 & E3 & E4 & B1
                     & B2 & B3 & B4 & G1 & G2 & L1 & L2 & T1).
  rewrite Hn in L1. injection L1 as <-.
  exists (mkRequest "https://graph.mapillary.com/images"
            (lon1, lat1, lon2, lat2) n token joined 30).
  split; [reflexivity|]. split; [reflexivity|]. split; [reflexivity|].
  unfold get_mapillary_images_metadata.
  rewrite E1, E2, E3, E4, B1, B2, B3, B4, G1, G2, Hn, L2, T1.
  cbn [negb orb]. rewrite bind_run. unfold lift at 1. rewrite Hjoin.
  rewrite bind_run. unfold http_get at 1.
  destruct (requests_get w (count_requests tr) _); reflexivity.
Qed.

(** X6.  Once the arguments are accepted the client sends exactly one
    request. A transport failure is raised as [RequestException], a body
    that is not JSON as [ValueError], and a response object with an [error]
    entry as [ValueError] with the message of that entry (["Unknown API
    error"] when it has none), whatever else the response holds; in each
    case nothing is printed and nothing is written, even with an [outpath]. *)
Theorem client_error_responses
  (w : World) (minLon minLat maxLon maxLat fields token : value)
  (outpath : option string) (limit : value) (tr : trace)
  (n : Z) (joined : string) :
  valid_query_arguments minLon minLat maxLon maxLat token limit = true ->
  as_int limit = Some n ->
  py_join "," fields = Ok joined ->
  exists req,
    param_access_token req = token /\ param_limit req = n
    /\ param_fields req = joined
    /\ (forall e,
          requests_get w (count_requests tr) req = HttpFailure e ->
          get_mapillary_images_metadata w minLon minLat maxLon maxLat fields
            token outpath limit tr
          = (Raise (mkExn RequestException
                      ("Failed to fetch data from Mapillary API: " ++ e)),
             tr ++ [ENet req]))
    /\ (forall e,
          requests_get w (count_requests tr) req = HttpBodyNotJson e ->
          get_mapillary_images_metadata w minLon minLat maxLon maxLat fields
            token outpath limit tr
          = (Raise (mkExn ValueError
                      ("Invalid JSON response from Mapillary API: " ++ e)),
             tr ++ [ENet req]))
    /\ (forall d err,
          requests_get w (count_requests tr) req = HttpJson (VDict d) ->
          lookup "error" d = Some (VDict err) ->
          get_mapillary_images_metadata w minLon minLat maxLon maxLat fields
            token outpath limit tr
          = (Raise (mkExn ValueError
                      ("Mapillary API error: "
                       ++ py_str w match lookup "message" err with
                                   | Some m => m
                                   | None => VStr "Unknown API error"
                                   end)),
             tr ++ [ENet req])).
Proof.
  intros Hgood Hn Hjoin.
  destruct (client_after_validation w minLon minLat maxLon maxLat fields token
              outpath limit tr n joined Hgood Hn Hjoin)
    as (req & Ht & Hl & Hf & Hrun).
  exists req. repeat (split; [assumption|]).
  split; [|split].
  - intros e He. now rewrite Hrun, He.
  - intros e He. now rewrite Hrun, He.
  - intros d err Hd Herr. rewrite Hrun, Hd. step. simpl py_in.
    assert (existsb (fun kv : string * value => fst kv =? "error") d = true)
      as ->.
    { apply existsb_exists.
      clear -Herr. induction d as [|[k v] d IH]; simpl in *; [discriminate|].
      destruct (k =? "error") eqn:E.
      - exists (k, v). split; [now left | exact E].
      - destruct (IH Herr) as (x & Hx & Hk). exists x.
        split; [now right | exact Hk]. }
    simpl py_get. rewrite Herr. simpl py_get.
    destruct (lookup "message" err); reflexivity.
Qed.

(* ================================================================== *)
(** ** More on the tiled orchestrator *)
(* ================================================================== *)







(* ================================================================== *)
(** ** Token discovery *)
(* ================================================================== *)

Lemma hbind_run {A B} (m : H A) (k : A -> H B) log :
  hbind m k log
  = match m log with
    | (Ok a, log') => k a log'
    | (Raise e, log') => (Raise e, log')
    end.
Proof. reflexivity. Qed.

Lemma token_from_environment_found h verbose vars log :
  token_from_environment h verbose vars log
  = match find (usable h) vars with
    | Some env_var =>
        (Ok (option_map (str_strip h) (environ_get h env_var)),
         log ++ if verbose then [FPrint (MTokenInEnvironment env_var)] else [])
    | None => (Ok None, log)
    end.
Proof.
  induction vars as [|env_var rest IH]; simpl; [reflexivity|].
  unfold usable at 1.
  destruct (environ_get h env_var) as [token|] eqn:E; [|exact IH].
  destruct (negb (token =? "") && negb (str_strip h token =? ""));
    [|exact IH].
  rewrite E. destruct verbose; hstep; simpl; [reflexivity|].
  now rewrite app_nil_r.
Qed.

Lemma say_run verbose m log :
  say verbose m log = (Ok tt, log ++ if verbose then [FPrint m] else []).
Proof. destruct verbose; hstep; [reflexivity | now rewrite app_nil_r]. Qed.

Lemma not_found_lines token_file verbose log :
  exists evs,
    (say verbose MNoTokenFound ;;
     say verbose (MNoTokenVariable "API_TOKEN") ;;
     say verbose (MNoTokenVariable "MAPPILLARY_API_TOKEN") ;;
     say verbose (MNoTokenVariable "MAPILLARY_TOKEN") ;;
     say verbose (MNoTokenFile token_file) ;;
     hret "")%host log
    = (Ok "", log ++ evs)
    /\ existsb is_open evs = false.
Proof.
  destruct verbose; hstep.
  - eexists. rewrite <- !app_assoc. split; reflexivity.
  - exists []. now rewrite app_nil_r.
Qed.

(** X9.  The token is looked up in the environment first, in the order
    API_TOKEN, MAPPILLARY_API_TOKEN, MAPILLARY_TOKEN: the first variable with
    a value that is not blank gives the token, stripped, and the token file
    is not opened.  Otherwise the token is the stripped first line of the
    token file when the file exists and can be read (the empty string when
    that line is blank), and the empty string when the file is missing or
    reading it raises an [IOError]; any other exception of the read is
    raised. *)
Theorem token_discovery_order
  (h : Host) (token_file : string) (verbose : bool) (log : list effect) :
  (forall env_var token,
     find (usable h) env_vars = Some env_var ->
     environ_get h env_var = Some token ->
     exists evs,
       get_mapillary_token h token_file verbose log
       = (Ok (str_strip h token), log ++ evs)
       /\ existsb is_open evs = false)
  /\ (find (usable h) env_vars = None ->
      path_exists h token_file = false ->
      exists evs,
        get_mapillary_token h token_file verbose log = (Ok "", log ++ evs)
        /\ existsb is_open evs = false)
  /\ (forall line,
        find (usable h) env_vars = None ->
        path_exists h token_file = true ->
        readline h token_file = Ok line ->
        fst (get_mapillary_token h token_file verbose log)
        = Ok (str_strip h line))
  /\ (forall e,
        find (usable h) env_vars = None ->
        path_exists h token_file = true ->
        readline h token_file = Raise e ->
        fst (get_mapillary_token h token_file verbose log)
        = if caught_in [IOError] e then Ok "" else Raise e).
Proof.
  split; [|split; [|split]].
  - intros env_var token Hfind Henv. unfold get_mapillary_token.
    rewrite hbind_run, token_from_environment_found, Hfind, Henv. simpl.
    eexists. split; [reflexivity|]. now destruct verbose.
  - intros Hfind Hfile. unfold get_mapillary_token.
    rewrite hbind_run, token_from_environment_found, Hfind.
    rewrite hbind_run. unfold token_from_file. rewrite Hfile.
    unfold hret at 1. apply not_found_lines.
  - intros line Hfind Hfile Hline. unfold get_mapillary_token.
    rewrite hbind_run, token_from_environment_found, Hfind.
    rewrite hbind_run. unfold token_from_file. rewrite Hfile.
    unfold htry. rewrite hbind_run, Hline. cbv zeta.
    destruct (str_strip h line =? "") eqn:E; cbn [negb].
    + unfold hret at 1. apply String.eqb_eq in E. rewrite E.
      destruct (not_found_lines token_file verbose
                  (log ++ [FOpen token_file])) as (evs & -> & _).
      reflexivity.
    + rewrite hbind_run, say_run. reflexivity.
  - intros e Hfind Hfile Hline. unfold get_mapillary_token.
    rewrite hbind_run, token_from_environment_found, Hfind.
    rewrite hbind_run. unfold token_from_file. rewrite Hfile.
    unfold htry. rewrite hbind_run, Hline.
    destruct (caught_in [IOError] e); [|reflexivity].
    rewrite hbind_run, say_run. unfold hret at 1.
    destruct (not_found_lines token_file verbose
                ((log ++ [FOpen token_file])
                 ++ (if verbose
                     then [FPrint (MTokenFileUnreadable token_file e)]
                     else []))) as (evs & -> & _).
    reflexivity.
Qed.

(* ================================================================== *)
(** ** The bounding box of a centre and a radius *)
(* ================================================================== *)


(* ================================================================== *)
(** ** Downloading the pictures of a table *)
(* ================================================================== *)

Lemma downloads_app l1 l2 : downloads (l1 ++ l2) = (downloads l1 + downloads l2)%nat.
Proof. unfold downloads. now rewrite filter_app, length_app. Qed.

(** One picture: a download that succeeds is followed by the cooldown, one
    that fails is reported and raised again. *)
Lemma download_mapillary_image_run h url out log :
  download_mapillary_image h url out 1 log
  = match wget_download h (downloads log) url out with
    | None => (Ok tt, log ++ [FWget url out; FSleep 1])
    | Some e =>
        (Raise e, log ++ [FWget url out; FPrint (MDownloadError url e)])
    end.
Proof.
  unfold download_mapillary_image, downloads. hstep.
  destruct (wget_download h _ url out); simpl;
    now rewrite <- app_assoc.
Qed.

(** One row of the loop: it counts as one success or as one failure with one
    error message, never raises, and downloads at most once. *)
Lemma download_row_step w h outfolderpath id_field url_field row t log :
  exists t' evs,
    htry
      (image_id <- hlift (row_getattr h row id_field) ;;
       image_url <- hlift (row_getattr h row url_field) ;;
       if negb (truthy image_url) then
         hret (mkTally (success_count t) (failed_count t + 1)
                 (errors t
                  ++ [("Empty URL for image ID: "
                       ++ py_str w image_id)%string]))
       else
         download_mapillary_image h image_url
           (os_path_join h outfolderpath
              (py_str w image_id ++ ".jpg")%string) 1 ;;
         hret (mkTally (success_count t + 1) (failed_count t) (errors t)))%host
      any_exception
      (fun e =>
         hret (mkTally (success_count t) (failed_count t + 1)
                 (errors t
                  ++ [("Failed to download image ID "
                       ++ py_str w (row_getattr_default h row id_field)
                       ++ ": " ++ msg e)%string]))) log
    = (Ok t', log ++ evs)
    /\ (downloads evs <= 1)%nat
    /\ ((success_count t' = success_count t + 1
         /\ failed_count t' = failed_count t
         /\ errors t' = errors t
         /\ downloads evs = 1%nat)%Z
        \/ (success_count t' = success_count t
            /\ failed_count t' = failed_count t + 1
            /\ exists error, errors t' = errors t ++ [error])%Z).
Proof.
  unfold htry. rewrite hbind_run. unfold hlift at 1.
  destruct (row_getattr h row id_field) as [image_id|e].
  2:{ unfold any_exception, hret. eexists. exists []. rewrite app_nil_r.
      split; [reflexivity|]. split; [apply Nat.le_0_l|]. right. simpl. eauto. }
  rewrite hbind_run. unfold hlift at 1.
  destruct (row_getattr h row url_field) as [image_url|e].
  2:{ unfold any_exception, hret. eexists. exists []. rewrite app_nil_r.
      split; [reflexivity|]. split; [apply Nat.le_0_l|]. right. simpl. eauto. }
  destruct (truthy image_url); cbn [negb].
  2:{ unfold hret. eexists. exists []. rewrite app_nil_r.
      split; [reflexivity|]. split; [apply Nat.le_0_l|]. right. simpl. eauto. }
  rewrite hbind_run, download_mapillary_image_run.
  destruct (wget_download h (downloads log) image_url _) as [e|].
  - unfold any_exception, hret. eexists. eexists.
    split; [reflexivity|]. split; [apply Nat.le_refl|]. right. simpl. eauto.
  - unfold hret. eexists. eexists.
    split; [reflexivity|]. split; [apply Nat.le_refl|]. left. simpl. auto.
Qed.

Lemma download_rows_tally w h outfolderpath id_field url_field rows :
  forall t log,
  exists t' evs,
    download_rows w h outfolderpath id_field url_field rows t log
    = (Ok t', log ++ evs)
    /\ (success_count t' + failed_count t'
        = success_count t + failed_count t + Z.of_nat (List.length rows))%Z
    /\ (Z.of_nat (List.length (errors t'))
        = Z.of_nat (List.length (errors t))
          + (failed_count t' - failed_count t))%Z
    /\ (success_count t <= success_count t')%Z
    /\ (success_count t' - success_count t <= Z.of_nat (downloads evs))%Z
    /\ (downloads evs <= List.length rows)%nat.
Proof.
  induction rows as [|row rows IH]; intros t log.
  - exists t, []. simpl. unfold hret. rewrite app_nil_r.
    repeat split; try reflexivity; lia.
  - cbn [download_rows]. rewrite hbind_run.
    destruct (download_row_step w h outfolderpath id_field url_field row t log)
      as (t1 & evs1 & -> & Hone & Hcase).
    destruct (IH t1 (log ++ evs1))
      as (t' & evs & -> & Hsum & Herrs & Hmono & Hdl & Hmax).
    exists t', (evs1 ++ evs). rewrite app_assoc. split; [reflexivity|].
    rewrite downloads_app. cbn [List.length].
    destruct Hcase as [(Hs & Hf & He & Hd) | (Hs & Hf & error & He)].
    + rewrite He in Herrs. repeat split; lia.
    + rewrite He, length_app in Herrs. simpl in Herrs.
      repeat split; lia.
Qed.

Lemma print_errors_run l log :
  print_errors l log = (Ok tt, log ++ map (fun e => FPrint (MErrorLine e)) l).
Proof.
  revert log. induction l as [|e l IH]; intros log; simpl.
  - unfold hret. now rewrite app_nil_r.
  - rewrite hbind_run. unfold hemit at 1. rewrite IH.
    now rewrite <- app_assoc.
Qed.

Lemma downloads_of_prints (ms : list message) :
  downloads (map FPrint ms) = 0%nat.
Proof. induction ms; auto. Qed.

Lemma length_itertuples h gdf : List.length (itertuples h gdf) = nrows gdf.
Proof. unfold itertuples. now rewrite length_map, length_seq. Qed.

(** The lines printed after the loop (lines 101-107) are prints only. *)
Lemma download_report t log :
  exists ms,
    (hemit (FPrint (MDownloadCompleted (success_count t) (failed_count t))) ;;
     (match errors t with
      | [] => hret tt
      | _ =>
          hemit (FPrint (MErrorsEncountered (List.length (errors t)))) ;;
          print_errors (firstn 5 (errors t)) ;;
          if (5 <? List.length (errors t))%nat
          then hemit (FPrint (MMoreErrors (List.length (errors t) - 5)))
          else hret tt
      end) ;;
     hret (summary t))%host log
    = (Ok (summary t), log ++ map FPrint ms).
Proof.
  rewrite hbind_run. unfold hemit at 1. rewrite hbind_run.
  destruct (errors t) as [|e es] eqn:He.
  - unfold hret. exists [MDownloadCompleted (success_count t) (failed_count t)].
    reflexivity.
  - rewrite hbind_run. unfold hemit at 1.
    rewrite hbind_run, print_errors_run.
    destruct (5 <? List.length (e :: es))%nat.
    + unfold hemit, hret.
      exists ([MDownloadCompleted (success_count t) (failed_count t);
               MErrorsEncountered (List.length (e :: es))]
              ++ map MErrorLine (firstn 5 (e :: es))
              ++ [MMoreErrors (List.length (e :: es) - 5)]).
      rewrite !map_app, map_map, <- !app_assoc. reflexivity.
    + unfold hret.
      exists ([MDownloadCompleted (success_count t) (failed_count t);
               MErrorsEncountered (List.length (e :: es))]
              ++ map MErrorLine (firstn 5 (e :: es))).
      rewrite !map_app, map_map, <- !app_assoc. reflexivity.
Qed.

(** X11.  For a table with rows and both fields, once the output folder
    exists or is created, [download_all_pictures_from_gdf] never raises:
    every row is counted exactly once, as a success or as a failure, there
    is one error message for each failure, and no more downloads are
    attempted than there are rows, at least one for each success. *)
Theorem download_summary_accounts_for_every_row
  (w : World) (h : Host) (gdf : DataFrame)
  (outfolderpath id_field url_field : string) (log : list effect) :
  frame_empty gdf = false ->
  in_columns id_field gdf = true ->
  in_columns url_field gdf = true ->
  path_exists h outfolderpath = true \/ os_makedirs h outfolderpath = None ->
  exists t evs,
    download_all_pictures_from_gdf w h gdf outfolderpath id_field url_field log
    = (Ok (summary t), log ++ evs)
    /\ (success_count t + failed_count t = Z.of_nat (nrows gdf))%Z
    /\ (Z.of_nat (List.length (errors t)) = failed_count t)%Z
    /\ (0 <= success_count t <= Z.of_nat (downloads evs))%Z
    /\ (downloads evs <= nrows gdf)%nat.
Proof.
  intros Hrows Hid Hurl Hdir. unfold download_all_pictures_from_gdf.
  rewrite Hrows, Hid, Hurl. cbn [negb]. rewrite hbind_run.
  assert (exists evs0,
            create_dir_if_not_exists h outfolderpath log = (Ok tt, log ++ evs0)
            /\ downloads evs0 = 0%nat) as (evs0 & -> & Hevs0).
  { unfold create_dir_if_not_exists.
    destruct (path_exists h outfolderpath); cbn [negb].
    - exists []. unfold hret. now rewrite app_nil_r.
    - destruct Hdir as [Hdir | Hdir]; [discriminate|]. rewrite Hdir.
      eexists. split; reflexivity. }
  rewrite hbind_run.
  destruct (download_rows_tally w h outfolderpath id_field url_field
              (itertuples h gdf) (mkTally 0 0 []) (log ++ evs0))
    as (t & evs & -> & Hsum & Herrs & Hmono & Hdl & Hmax).
  destruct (download_report t ((log ++ evs0) ++ evs)) as (ms & ->).
  rewrite length_itertuples in *. simpl in Hsum, Herrs, Hmono, Hdl.
  exists t, (evs0 ++ evs ++ map FPrint ms).
  rewrite !app_assoc. split; [reflexivity|].
  rewrite !downloads_app, downloads_of_prints, Hevs0.
  repeat split; lia.
Qed.

(** What [download_all_pictures_from_gdf] does before the first
    download: an empty table gives the zero summary and one printed line,
    even when its fields are missing; a table with rows but without the id
    field, or without the URL field, raises [ValueError] before anything is
    created; and when the output folder cannot be created that exception is
    raised and nothing is downloaded. *)
Lemma download_guards
  (w : World) (h : Host) (gdf : DataFrame)
  (outfolderpath id_field url_field : string) (log : list effect) :
  (frame_empty gdf = true ->
   download_all_pictures_from_gdf w h gdf outfolderpath id_field url_field log
   = (Ok (VDict [("success", VInt 0); ("failed", VInt 0);
                 ("errors", VList [])]),
      log ++ [FPrint MEmptyFrame]))
  /\ (frame_empty gdf = false ->
      in_columns id_field gdf = false ->
      download_all_pictures_from_gdf w h gdf outfolderpath id_field url_field
        log
      = (Raise (mkExn ValueError
                  ("ID field '" ++ id_field
                   ++ "' not found in GeoDataFrame columns")), log))
  /\ (frame_empty gdf = false ->
      in_columns id_field gdf = true ->
      in_columns url_field gdf = false ->
      download_all_pictures_from_gdf w h gdf outfolderpath id_field url_field
        log
      = (Raise (mkExn ValueError
                  ("URL field '" ++ url_field
                   ++ "' not found in GeoDataFrame columns")), log))
  /\ (forall e,
        frame_empty gdf = false ->
        in_columns id_field gdf = true ->
        in_columns url_field gdf = true ->
        path_exists h outfolderpath = false ->
        os_makedirs h outfolderpath = Some e ->
        download_all_pictures_from_gdf w h gdf outfolderpath id_field
          url_field log
        = (Raise e, log)).
Proof.
  unfold download_all_pictures_from_gdf.
  split; [|split; [|split]].
  - intros ->. reflexivity.
  - intros -> ->. reflexivity.
  - intros -> -> ->. reflexivity.
  - intros e -> -> -> Hexists Hmk. cbn [negb]. rewrite hbind_run.
    unfold create_dir_if_not_exists. now rewrite Hexists, Hmk.
Qed.

(* ================================================================== *)
(** ** The polygon of a place *)
(* ================================================================== *)

Lemma insert_decreasing_perm x l : Permutation (x :: l) (insert_decreasing x l).
Proof.
  induction l as [|y l IH]; simpl; [apply Permutation_refl|].
  destruct (Qle_bool (fst y) (fst x)); [apply Permutation_refl|].
  eapply perm_trans; [apply perm_swap | now apply perm_skip].
Qed.

Lemma sort_decreasing_perm l : Permutation l (sort_decreasing l).
Proof.
  induction l as [|x l IH]; simpl; [constructor|].
  eapply perm_trans; [apply perm_skip, IH | apply insert_decreasing_perm].
Qed.

Lemma insert_decreasing_sorted x l :
  StronglySorted not_above l -> StronglySorted not_above (insert_decreasing x l).
Proof.
  induction 1 as [|y l Hl IH Hy]; simpl.
  - constructor; constructor.
  - destruct (Qle_bool (fst y) (fst x)) eqn:E.
    + apply Qle_bool_iff in E. constructor.
      * now constructor.
      * constructor; [exact E|].
        eapply Forall_impl; [|exact Hy]. intros z Hz. unfold not_above in *.
        eapply Qle_trans; eassumption.
    + constructor; [exact IH|].
      assert (fst x <= fst y)%Q as Hxy.
      { apply Qlt_le_weak, Qnot_le_lt. intros H. apply Qle_bool_iff in H.
        congruence. }
      apply (Permutation_Forall (insert_decreasing_perm x l)).
      constructor; assumption.
Qed.

Lemma sort_decreasing_sorted l : StronglySorted not_above (sort_decreasing l).
Proof.
  induction l as [|x l IH]; simpl; [constructor|].
  now apply insert_decreasing_sorted.
Qed.

(** The first item of a sorted list that passes a test is not below any
    other item that passes it. *)
Lemma first_of_filter_is_highest (f : Q * value -> bool) l x rest :
  StronglySorted not_above l ->
  filter f l = x :: rest ->
  In x l /\ f x = true
  /\ forall y, In y l -> f y = true -> (fst y <= fst x)%Q.
Proof.
  induction 1 as [|a l Hl IH Ha]; simpl; [discriminate|].
  destruct (f a) eqn:E.
  - intros [= -> <-]. split; [now left|]. split; [exact E|].
    intros y [<- | Hy] _; [apply Qle_refl|].
    exact (proj1 (Forall_forall _ _) Ha y Hy).
  - intros Hfilter. destruct (IH Hfilter) as (Hin & Hfx & Hmax).
    split; [now right|]. split; [exact Hfx|].
    intros y [<- | Hy] Hfy; [congruence | now apply Hmax].
Qed.

Lemma sort_by_importance_regular h items :
  Forall regular_candidate items ->
  sort_by_importance h items
  = Ok (map snd (sort_decreasing (map keyed items))).
Proof.
  intros Hall. unfold sort_by_importance.
  assert (exists keys,
            list_apply importance items = Ok keys
            /\ finite_keys keys = Some (map fst (map keyed items))
            /\ List.length keys = List.length items)
    as (keys & -> & Hkeys & Hlen).
  { induction Hall as [|item items [[q Hq] _] _ (keys & Hk & Hf & Hl)].
    - now exists [].
    - simpl. unfold keyed at 1. rewrite Hq. simpl.
      unfold importance_value in Hq.
      destruct (importance item) as [k|] eqn:Hi; [|discriminate].
      destruct (as_number k) as [[q'| | |]|] eqn:Hk'; try discriminate.
      injection Hq as ->. rewrite Hk. simpl. exists (k :: keys).
      split; [reflexivity|]. simpl. rewrite Hk', Hf.
      split; [reflexivity | now rewrite Hl]. }
  simpl. rewrite Hkeys. do 3 f_equal.
  clear. induction items as [|item items IH]; simpl; [reflexivity|].
  now rewrite IH.
Qed.

Lemma polygon_items_regular items :
  Forall (fun item => exists b, is_polygon_item item = Ok b) items ->
  polygon_items items = Ok (filter polygon_typed items).
Proof.
  induction 1 as [|item items [b Hb] _ IH]; simpl; [reflexivity|].
  unfold polygon_typed at 1. rewrite Hb, IH. simpl. now destruct b.
Qed.

Lemma polygon_typed_geojson item :
  polygon_typed item = true ->
  exists d geojson,
    item = VDict d /\ py_getitem item "geojson" = Ok (VDict geojson)
    /\ lookup "type" geojson = Some (VStr "Polygon").
Proof.
  unfold polygon_typed, is_polygon_item.
  destruct item; try discriminate. simpl.
  destruct (lookup "geojson" d) as [g|] eqn:Hg; simpl; [|discriminate].
  destruct g as [| | | | | |geojson|]; try discriminate. simpl.
  destruct (lookup "type" geojson) as [t|] eqn:Ht; simpl; [|discriminate].
  destruct t; try discriminate. intros Hs. apply String.eqb_eq in Hs.
  subst. eauto.
Qed.

Lemma map_snd_keyed items : map snd (map keyed items) = items.
Proof. rewrite map_map. apply map_id. Qed.

Lemma filter_map_snd (f : value -> bool) (l : list (Q * value)) :
  filter f (map snd l) = map snd (filter (fun x => f (snd x)) l).
Proof.
  induction l as [|x l IH]; simpl; [reflexivity|].
  destruct (f (snd x)); simpl; now rewrite IH.
Qed.

(** The candidates of a response, sorted and filtered as lines 531-534 do. *)
Lemma territory_selection h items :
  Forall regular_candidate items ->
  exists sorted,
    sort_by_importance h items = Ok sorted
    /\ polygon_items sorted = Ok (filter polygon_typed sorted)
    /\ (forall item, In item sorted <-> In item items)
    /\ (forall first rest,
          filter polygon_typed sorted = first :: rest ->
          In first items /\ polygon_typed first = true
          /\ forall item, In item items -> polygon_typed item = true ->
                          (fst (keyed item) <= fst (keyed first))%Q).
Proof.
  intros Hall. rewrite (sort_by_importance_regular h items Hall).
  set (s := sort_decreasing (map keyed items)).
  assert (Permutation (map keyed items) s) as Hperm
    by apply sort_decreasing_perm.
  assert (forall item, In item (map snd s) <-> In item items) as Hin.
  { intros item. split; intros H.
    - rewrite <- (map_snd_keyed items).
      exact (Permutation_in _ (Permutation_map snd (Permutation_sym Hperm)) H).
    - rewrite <- (map_snd_keyed items) in H.
      exact (Permutation_in _ (Permutation_map snd Hperm) H). }
  assert (forall x, In x s -> x = keyed (snd x)) as Hkeyed.
  { intros x Hx. apply (Permutation_in _ (Permutation_sym Hperm)) in Hx.
    apply in_map_iff in Hx. now destruct Hx as (item & <- & _). }
  exists (map snd s). split; [reflexivity|]. split; [|split; [exact Hin|]].
  - apply polygon_items_regular. apply Forall_forall. intros item Hitem.
    apply Hin in Hitem.
    exact (proj2 (proj1 (Forall_forall _ _) Hall item Hitem)).
  - intros first rest Hfirst. rewrite filter_map_snd in Hfirst.
    destruct (filter (fun x => polygon_typed (snd x)) s) as [|x xs] eqn:Hf;
      [discriminate|].
    simpl in Hfirst. injection Hfirst as <- _.
    destruct (first_of_filter_is_highest _ s x xs
                (sort_decreasing_sorted _) Hf) as (Hx & Hpx & Hmax).
    split; [apply Hin; now apply in_map|]. split; [exact Hpx|].
    intros item Hitem Hp. rewrite <- (Hkeyed x Hx).
    apply (Hmax (keyed item)); [|exact Hp].
    apply (Permutation_in _ Hperm). now apply in_map.
Qed.

(** X12.  When Nominatim answers with a list of candidates (each with a
    finite importance, 0 when absent, and with a geojson entry that is an
    object when present), [get_territory_polygon] returns the geojson of a
    candidate of type Polygon whose importance no other Polygon candidate
    exceeds; it raises [ValueError] when no candidate is of type Polygon and
    when the list is empty.  One request is made in each case. *)
Theorem territory_is_the_most_important_polygon
  (w : World) (h : Host) (place_name : string) (outpath : option string)
  (log : list effect) (items : list value) :
  nominatim_get h place_name = HttpJson (VList items) ->
  Forall regular_candidate items ->
  (forall polygon path, json_dump w polygon path = None) ->
  (existsb polygon_typed items = true ->
   exists first geojson evs,
     get_territory_polygon w h place_name outpath log
     = (Ok (VDict geojson), log ++ FNominatim place_name :: evs)
     /\ In first items
     /\ py_getitem first "geojson" = Ok (VDict geojson)
     /\ lookup "type" geojson = Some (VStr "Polygon")
     /\ forall item, In item items -> polygon_typed item = true ->
                     (fst (keyed item) <= fst (keyed first))%Q)
  /\ (items <> [] ->
      existsb polygon_typed items = false ->
      get_territory_polygon w h place_name outpath log
      = (Raise (mkExn ValueError
                  ("No polygon geometry found for place name: '"
                   ++ place_name ++ "'")),
         log ++ [FNominatim place_name]))
  /\ (items = [] ->
      get_territory_polygon w h place_name outpath log
      = (Raise (mkExn ValueError
                  ("No results found for place name: '"
                   ++ place_name ++ "'")),
         log ++ [FNominatim place_name])).
Proof.
  intros Hnet Hall Hdump.
  destruct (territory_selection h items Hall)
    as (sorted & Hsort & Hpoly & Hin & Hfirst).
  assert (forall first rest,
            items = first :: rest ->
            get_territory_polygon w h place_name outpath log
            = match filter polygon_typed sorted with
              | [] =>
                  (Raise (mkExn ValueError
                            ("No polygon geometry found for place name: '"
                             ++ place_name ++ "'")),
                   log ++ [FNominatim place_name])
              | first :: _ =>
                  (polygon <- hlift (py_getitem first "geojson") ;;
                   match outpath with
                   | Some path =>
                       if negb (path =? "")
                       then run_module (dump_json w polygon path)
                       else hret tt
                   | None => hret tt
                   end ;;
                   hret polygon)%host (log ++ [FNominatim place_name])
              end) as Hrun.
  { intros first rest Hitems. unfold get_territory_polygon.
    rewrite hbind_run, Hnet, Hitems. cbn [truthy negb].
    rewrite <- Hitems, hbind_run. unfold hlift at 1. rewrite Hsort.
    rewrite hbind_run. unfold hlift at 1. rewrite Hpoly.
    destruct (filter polygon_typed sorted); reflexivity. }
  split; [|split].
  - intros Hsome. apply existsb_exists in Hsome.
    destruct Hsome as (item0 & Hitem0 & Hp0).
    destruct items as [|i0 irest] eqn:Hitems; [contradiction|].
    rewrite (Hrun i0 irest eq_refl).
    destruct (filter polygon_typed sorted) as [|first rest] eqn:Hfilter.
    { exfalso. apply Hin in Hitem0.
      assert (In item0 (filter polygon_typed sorted)) as Habs
        by (apply filter_In; now split).
      now rewrite Hfilter in Habs. }
    destruct (Hfirst first rest eq_refl) as (Hfin & Hfp & Hmax).
    destruct (polygon_typed_geojson first Hfp)
      as (d & geojson & _ & Hgeo & Htype).
    exists first, geojson.
    rewrite hbind_run. unfold hlift at 1. rewrite Hgeo. rewrite hbind_run.
    assert (exists evs,
              match outpath with
              | Some path =>
                  if negb (path =? "")
                  then run_module (dump_json w (VDict geojson) path)
                  else hret tt
              | None => hret tt
              end (log ++ [FNominatim place_name])
              = (Ok tt, (log ++ [FNominatim place_name]) ++ evs))
      as (evs & ->).
    { destruct outpath as [path|]; [|exists []; now rewrite app_nil_r].
      destruct (negb (path =? "")); [|exists []; now rewrite app_nil_r].
      unfold run_module, dump_json. rewrite Hdump.
      eexists. reflexivity. }
    exists evs. unfold hret. rewrite <- app_assoc.
    repeat split; auto.
  - intros Hne Hnone.
    destruct items as [|i0 irest] eqn:Hitems; [contradiction|].
    rewrite (Hrun i0 irest eq_refl).
    destruct (filter polygon_typed sorted) as [|first rest] eqn:Hfilter;
      [reflexivity|].
    exfalso. destruct (Hfirst first rest eq_refl) as (Hfin & Hfp & _).
    assert (existsb polygon_typed (i0 :: irest) = true) as Habs
      by (apply existsb_exists; eauto).
    congruence.
  - intros ->. unfold get_territory_polygon. rewrite hbind_run, Hnet.
    reflexivity.
Qed.




(* ================================================================== *)
(** ** The further properties on concrete inputs *)
(* ================================================================== *)

(** X2 on the three records and the unit square. *)
Lemma geometry_of_inside_edge_outside :
  Forall (point_within (Some unit_square))
    [VPoint (mkPoint (FFin (1 # 2)) (FFin (1 # 2)));
     VPoint (mkPoint (FFin 1) (FFin (1 # 2)))].
Proof.
  eapply (projected_geometry_cells_are_points_within_the_polygon quiet_world
            (response_of inside_edge_outside) None (Some unit_square) []);
    vm_compute; reflexivity.
Defined.

(** X3 on the three records and the unit square. *)
Lemma table_of_inside_edge_outside :
  exists gdf,
    fst (mapillary_data_to_gdf quiet_world (response_of inside_edge_outside)
           None (Some unit_square) []) = Ok gdf
    /\ well_formed gdf
    /\ (nrows gdf <= 3)%nat
    /\ (gdf = empty_GeoDataFrame
        \/ map fst (columns gdf)
           = ["id"; "geometry"; "is_pano"; "computed_rotation"]
           /\ (Some unit_square = None -> nrows gdf = 3%nat)).
Proof.
  eexists. split; [vm_compute; reflexivity|].
  eapply (projected_table_is_well_formed quiet_world
            [("data", VList (map VDict inside_edge_outside))]
            inside_edge_outside None (Some unit_square) []);
    [reflexivity | vm_compute; reflexivity].
Defined.

(** X4 on the three records and one record without geometry. *)
Lemma filter_metadata_on_four_records :
  exists filtered,
    filter_metadata_with_polygon quiet_world
      (VDict [("data", VList (map VDict
                 (inside_edge_outside ++ [image_without_geometry 4])));
              ("paging", VDict [])])
      unit_square []
    = (Ok (VDict filtered),
       [] ++ skip_warnings quiet_world
               (map VDict (inside_edge_outside ++ [image_without_geometry 4])))
    /\ lookup "data" filtered
       = Some (VList (filter (strictly_inside quiet_world unit_square)
                        (map VDict (inside_edge_outside
                                    ++ [image_without_geometry 4]))))
    /\ (forall key, key <> "data" ->
                    lookup key filtered
                    = lookup key
                        [("data", VList (map VDict
                            (inside_edge_outside
                             ++ [image_without_geometry 4])));
                         ("paging", VDict [])])
    /\ map fst filtered = ["data"; "paging"].
Proof.
  apply (filter_metadata_keeps_the_rest_of_the_response quiet_world
           unit_square
           [("data", VList (map VDict
                (inside_edge_outside ++ [image_without_geometry 4])));
            ("paging", VDict [])]
           (VList (map VDict
                     (inside_edge_outside ++ [image_without_geometry 4])))
           (map VDict (inside_edge_outside ++ [image_without_geometry 4]))
           []);
    [reflexivity | reflexivity | reflexivity |].
  intros item e [<- | [<- | [<- | [<- | []]]]]; vm_compute;
    intros [= <-]; reflexivity.
Defined.

(** X5 on the same response. *)
Lemma filter_metadata_twice_on_four_records :
  filter_metadata_with_polygon quiet_world
    (response_of [image 1 (1 # 2) (1 # 2)]) unit_square []
  = (Ok (response_of [image 1 (1 # 2) (1 # 2)]), []).
Proof.
  apply (filter_metadata_is_idempotent quiet_world unit_square
           [("data", VList (map VDict
                (inside_edge_outside ++ [image_without_geometry 4])))]
           (VList (map VDict
                     (inside_edge_outside ++ [image_without_geometry 4])))
           (map VDict (inside_edge_outside ++ [image_without_geometry 4]))
           []
           [EPrint (WSkipMalformed (mkExn KeyError "geometry"))]);
    [reflexivity | reflexivity | reflexivity | | vm_compute; reflexivity].
  intros item e [<- | [<- | [<- | [<- | []]]]]; vm_compute;
    intros [= <-]; reflexivity.
Defined.

(** X6 on a request that times out. *)
Lemma client_on_a_timeout :
  exists req,
    param_access_token req = VStr "t" /\ param_limit req = 10%Z
    /\ param_fields req = "id,geometry"
    /\ get_mapillary_images_metadata
         (example_world [] [HttpFailure "timed out"])
         (VInt 0) (VInt 0) (VInt 1) (VInt 1)
         (VList [VStr "id"; VStr "geometry"]) (VStr "t") (Some "out.json")
         (VInt 10) []
       = (Raise (mkExn RequestException
                   "Failed to fetch data from Mapillary API: timed out"),
          [] ++ [ENet req]).
Proof.
  destruct (client_error_responses
              (example_world [] [HttpFailure "timed out"])
              (VInt 0) (VInt 0) (VInt 1) (VInt 1)
              (VList [VStr "id"; VStr "geometry"]) (VStr "t")
              (Some "out.json") (VInt 10) [] 10%Z "id,geometry"
              eq_refl eq_refl eq_refl)
    as (req & Ht & Hl & Hf & Hfail & _).
  exists req. repeat (split; [assumption|]).
  exact (Hfail "timed out" eq_refl).
Defined.



(** X11 on three pictures: the second has no URL, the download of the third
    fails. *)
Lemma download_of_three_pictures :
  exists t evs,
    download_all_pictures_from_gdf quiet_world
      (example_host [] [1%nat] (HttpJson (VList [])))
      three_pictures "pictures" "id" "thumb_original_url" []
    = (Ok (summary t), [] ++ evs)
    /\ (success_count t + failed_count t = Z.of_nat 3)%Z
    /\ (Z.of_nat (List.length (errors t)) = failed_count t)%Z
    /\ (0 <= success_count t <= Z.of_nat (downloads evs))%Z
    /\ (downloads evs <= 3)%nat.
Proof.
  apply (download_summary_accounts_for_every_row quiet_world
           (example_host [] [1%nat] (HttpJson (VList [])))
           three_pictures "pictures" "id" "thumb_original_url" []);
    [reflexivity | reflexivity | reflexivity | right; reflexivity].
Defined.

(** X12 on three candidates: a point and two polygons. *)
Lemma territory_of_three_candidates :
  exists first geojson evs,
    get_territory_polygon quiet_world
      (example_host [] [] (HttpJson (VList three_candidates)))
      "Curitiba" None []
    = (Ok (VDict geojson), [] ++ FNominatim "Curitiba" :: evs)
    /\ In first three_candidates
    /\ py_getitem first "geojson" = Ok (VDict geojson)
    /\ lookup "type" geojson = Some (VStr "Polygon")
    /\ forall item, In item three_candidates -> polygon_typed item = true ->
                    (fst (keyed item) <= fst (keyed first))%Q.
Proof.
  refine (proj1 (territory_is_the_most_important_polygon quiet_world
                   (example_host [] [] (HttpJson (VList three_candidates)))
                   "Curitiba" None [] three_candidates eq_refl _
                   (fun _ _ => eq_refl))
            eq_refl).
  unfold three_candidates.
  repeat (constructor; [split; eexists; reflexivity|]). constructor.
Defined.

